(** * AquiMod_autocal: the [AquiModAWS] wrapper and its SCE calibration

    A shallow embedding of [src/autocal/aquimod.py].

    - Part I models the text-file accessors of [AquiModAWS]
      ([_edit_line], [_read_line], the [calibrated_variable] property and
      [output_calibration_paths]) over a store of text files.
    - Part II models tables of points: the masks with which [calibrate]
      partitions a population (lines 427-434) and the column means of
      [simplx.mean()] (line 332).
    - Part III models the properties of the input file and of the paths,
      and [run].
    - Part IV models [read_performance_output], [_cce] and [calibrate] as
      they run, and the lines of [_cce] that no call reaches, each as a
      function of the values it reads.

    Reading conventions.

    - Python exceptions are values of [exn] and [pyexn]; a call either
      returns or raises.  A body that ends without [return] returns
      [PyNone].
    - Files are kept by canonical path in a flat store whose directories
      exist; the content of a file is the text Python's text mode yields.
    - A pandas table is its column names and its rows; a row carries its
      index label and one value per column.  Columns of floats hold exact
      rationals.
    - A statement that cannot return on any value ends the definition of
      the body it stands in: the statements after it receive nothing.  So
      [_cce] ends at its line 318, where the method [sort_by], which
      [DataFrame] does not have, is called.
    - pandas, numpy and the program started by [os.system] are outside the
      repository: their operations are the variables of a section, and
      the statements hold whatever they do. *)

From Stdlib Require Import QArith Lia Lqa ZArith Bool.
From stdpp Require Import base option list sorting gmap strings pretty.

Local Open Scope string_scope.
Local Open Scope list_scope.

(** ** Python outcomes *)

Inductive exn : Set :=
  | FileNotFoundError
  | IndexError
  | KeyError
  | ValueError.

Inductive outcome (A : Type) : Type :=
  | Returned (a : A)
  | Raised (e : exn).
Arguments Returned {A} a.
Arguments Raised {A} e.

(** The values a property of [AquiModAWS] can hand back: [None] when the
    body falls off its end, or a string. *)
Inductive pyvalue : Set :=
  | PyNone
  | PyStr (s : string).

(** [x == "lit"] for a Python value against a string literal. *)
Definition py_eq_str (x : pyvalue) (lit : string) : bool :=
  match x with
  | PyNone => false
  | PyStr s => String.eqb s lit
  end.

(** ** Part I: text files *)

Module Files.

(** The files the object can see, by canonical path. *)
Abbreviation filesystem := (gmap string string).

Definition newline : Ascii.ascii := Ascii.ascii_of_nat 10.

(** [f.readlines()]: the lines of a text, each keeping its newline. *)
Fixpoint readlines (s : string) : list string :=
  match s with
  | EmptyString => []
  | String c s' =>
      if Ascii.eqb c newline then String c EmptyString :: readlines s'
      else match readlines s' with
           | [] => [String c EmptyString]
           | l :: ls => String c l :: ls
           end
  end.

(** [f.writelines(lines)]: the lines written one after the other. *)
Definition writelines (lines : list string) : string :=
  fold_right String.append EmptyString lines.

(** [s.replace("\n", "")]. *)
Fixpoint strip_newlines (s : string) : string :=
  match s with
  | EmptyString => EmptyString
  | String c s' =>
      if Ascii.eqb c newline then strip_newlines s'
      else String c (strip_newlines s')
  end.

(** Python's index normalisation: [-len <= i < len], negative indices count
    from the end. *)
Definition py_index {A} (l : list A) (i : Z) : option nat :=
  let n := Z.of_nat (length l) in
  if (0 <=? i)%Z && (i <? n)%Z then Some (Z.to_nat i)
  else if (- n <=? i)%Z && (i <? 0)%Z then Some (Z.to_nat (n + i))
  else None.

(** [l[i]]. *)
Definition getitem {A} (l : list A) (i : Z) : option A :=
  k ← py_index l i; l !! k.

(** [l[i] = x]. *)
Definition setitem {A} (l : list A) (i : Z) (x : A) : option (list A) :=
  k ← py_index l i; Some (<[k := x]> l).

Record AquiModAWS := { model_dir : string }.

(** [Path(model_dir, "Input.txt")], set in [__init__]. *)
Definition input_path (self : AquiModAWS) : string :=
  model_dir self +:+ "/Input.txt".

(** [Path(model_dir, "Output", name)]. *)
Definition output_file (self : AquiModAWS) (name : string) : string :=
  model_dir self +:+ "/Output/" +:+ name.

(** [_edit_line]: the lines are read from [path]; the edited lines are
    written to [self.input_path]. *)
Definition _edit_line (self : AquiModAWS) (path : string) (line_number : Z)
    (text : string) (fs : filesystem) : outcome unit * filesystem :=
  match fs !! path with
  | None => (Raised FileNotFoundError, fs)
  | Some content =>
      match setitem (readlines content) line_number
                    (text +:+ String newline EmptyString) with
      | None => (Raised IndexError, fs)
      | Some lines => (Returned tt, <[input_path self := writelines lines]> fs)
      end
  end.

(** [_read_line]. *)
Definition _read_line (self : AquiModAWS) (path : string) (line_number : Z)
    (fs : filesystem) : outcome string :=
  match fs !! path with
  | None => Raised FileNotFoundError
  | Some content =>
      match getitem (readlines content) line_number with
      | None => Raised IndexError
      | Some l => Returned (strip_newlines l)
      end
  end.

(** The [calibrated_variable] getter: line 7 is read, the body ends without
    a [return]. *)
Definition calibrated_variable (self : AquiModAWS) (fs : filesystem)
    : outcome pyvalue :=
  match _read_line self (input_path self) 7 fs with
  | Raised e => Raised e
  | Returned _ => Returned PyNone
  end.

(** A Python [dict] with string keys, in insertion order. *)
Definition dict (V : Type) := list (string * V).

Fixpoint dict_get {V} (d : dict V) (k : string) : option V :=
  match d with
  | [] => None
  | (k', v) :: d' => if String.eqb k' k then Some v else dict_get d' k
  end.

Fixpoint dict_set {V} (d : dict V) (k : string) (v : V) : dict V :=
  match d with
  | [] => [(k, v)]
  | (k', v') :: d' =>
      if String.eqb k' k then (k', v) :: d' else (k', v') :: dict_set d' k v
  end.

Section Paths.

(** The name of the module configured for a component: the query of
    [module_names] on the model-data table for one key of [df_dict]. *)
Variable module_name : string -> filesystem -> outcome string.

(** The keys of [df_dict] in [module_names]. *)
Definition components : list string := ["soil"; "unsaturated"; "saturated"].

Fixpoint names_of (cs : list string) (fs : filesystem)
    : outcome (dict string) :=
  match cs with
  | [] => Returned []
  | c :: cs' =>
      match module_name c fs with
      | Raised e => Raised e
      | Returned m =>
          match names_of cs' fs with
          | Raised e => Raised e
          | Returned d => Returned ((c, m) :: d)
          end
      end
  end.

(** The [module_names] property: one entry per component. *)
Definition module_names (fs : filesystem) : outcome (dict string) :=
  names_of components fs.

(** The [output_calibration_paths] property (lines 143-155). *)
Definition output_calibration_paths (self : AquiModAWS) (fs : filesystem)
    : outcome (dict string) :=
  match module_names fs with
  | Raised e => Raised e
  | Returned names =>
      let paths :=
        map (fun cm => (fst cm, output_file self (snd cm +:+ "_calib.out")))
            names in
      match calibrated_variable self fs with
      | Raised e => Raised e
      | Returned v =>
          if py_eq_str v "g"
          then Returned (dict_set paths "fit"
                           (output_file self "fit_calib_GWL.out"))
          else
            match calibrated_variable self fs with
            | Raised e => Raised e
            | Returned v' =>
                if py_eq_str v' "s"
                then Returned (dict_set paths "fit"
                                 (output_file self "fit_calib_SM.out"))
                else Returned paths
            end
      end
  end.

End Paths.

End Files.

(** ** Part II: tables of points *)

Module SCE.

Local Open Scope Q_scope.

(** The values of a row, one per column. *)
Definition vec := list Q.

(** A pandas table: the names of its columns and its rows, each with its
    index label. *)
Record DataFrame := { columns : list string; rows : list (nat * vec) }.

Definition vadd (u v : vec) : vec := zip_with Qplus u v.

(** [df.iloc[bool_mask]]: the rows at the positions the mask selects. *)
Fixpoint iloc_mask {A} (bool_mask : list bool) (df : list A) : list A :=
  match bool_mask, df with
  | b :: bs, r :: rs => if b then r :: iloc_mask bs rs else iloc_mask bs rs
  | _, _ => []
  end.

(** [[(j % num_complexes) == i for j in range(len(df))]] (line 433). *)
Definition bool_mask (num_complexes i len : nat) : list bool :=
  map (fun j => Nat.eqb (j mod num_complexes) i) (seq 0 len).

(** The [i]-th complex built by the loop of [calibrate] (lines 429-434). *)
Definition complx_of {A} (num_complexes i : nat) (df : list A) : list A :=
  iloc_mask (bool_mask num_complexes i (length df)) df.

(** All the complexes, in the order the loop over [range(num_complexes)]
    builds them (lines 427-434). *)
Definition partition {A} (num_complexes : nat) (df : list A) : list (list A) :=
  map (fun i => complx_of num_complexes i df) (seq 0 num_complexes).

(** The positions of a table of [len] rows that go to complex [i]. *)
Definition complx_positions (num_complexes i len : nat) : list nat :=
  iloc_mask (bool_mask num_complexes i len) (seq 0 len).

(** [df.iloc[bool_mask]] on a table: the columns stay. *)
Definition iloc (df : DataFrame) (mask : list bool) : DataFrame :=
  {| columns := columns df; rows := iloc_mask mask (rows df) |}.

(** [df.index]. *)
Definition index (df : DataFrame) : list nat := map fst (rows df).

Definition Qsum (l : list Q) : Q := fold_right Qplus 0 l.

(** [simplx.mean()]: the mean of every column over all the rows. *)
Definition column_sum (rows : list vec) : vec :=
  match rows with
  | [] => []
  | r :: rs => fold_left vadd rs r
  end.

Definition mean (rows : list vec) : vec :=
  map (fun s => s / inject_Z (Z.of_nat (length rows))) (column_sum rows).

(** The centroid of line 332, [simplx.mean()]: one mean per column of the
    simplex, the columns [ObjectiveFunction] and [weight] among them (the
    [drop] of line 334 is commented out). *)
Definition centroid (simplx : DataFrame) : vec :=
  mean (map snd (rows simplx)).

(** [simplx.iloc[-1]] (line 336). *)
Definition worst_row (simplx : DataFrame) : option (nat * vec) :=
  last (rows simplx).

(** The centroid as the specification words it: the mean of the rows of
    the simplex without its last row. *)
Definition centroid_excluding_worst (simplx : DataFrame) : vec :=
  mean (map snd (removelast (rows simplx))).

(** Equality of vectors, coordinate by coordinate. *)
Fixpoint vec_eqb (u v : vec) : bool :=
  match u, v with
  | [], [] => true
  | x :: u', y :: v' => Qeq_bool x y && vec_eqb u' v'
  | _, _ => false
  end.

(** The sum of the [k]-th column over the rows. *)
Definition coordinate_sum (k : nat) (rows : list vec) : Q :=
  Qsum (map (fun v => nth k v 0) rows).

(** A simplex of two rows, the better one first, with the columns a
    simplex has at line 332. *)
Definition demo_pair : DataFrame :=
  {| columns := ["x"; "y"; "ObjectiveFunction"; "weight"];
     rows := [(0%nat, [4; 2; -(1); 1 # 4]); (1%nat, [2; 1; -(2); 3 # 4])] |}.

End SCE.

(** ** Part III: the properties of the input file, the paths and [run] *)

Module Input.

Import Files.

Definition carriage_return : Ascii.ascii := Ascii.ascii_of_nat 13.
Definition space : Ascii.ascii := Ascii.ascii_of_nat 32.

Fixpoint has_char (c : Ascii.ascii) (s : string) : bool :=
  match s with
  | EmptyString => false
  | String c' s' => Ascii.eqb c' c || has_char c s'
  end.

(** A text without line breaks: what a setter is meant to be given. *)
Definition single_line (s : string) : Prop :=
  has_char newline s = false /\ has_char carriage_return s = false.

(** A line with its newline at the end and nowhere else. *)
Definition terminated (l : string) : Prop :=
  exists body, l = body +:+ String newline EmptyString /\
               has_char newline body = false.

(** The shape of what [readlines] returns: terminated lines, the last one
    possibly a non-empty rest without newline. *)
Inductive lines_ok : list string -> Prop :=
  | lines_ok_nil : lines_ok []
  | lines_ok_rest (l : string) :
      l <> EmptyString -> has_char newline l = false -> lines_ok [l]
  | lines_ok_cons (l : string) (ls : list string) :
      terminated l -> lines_ok ls -> lines_ok (l :: ls).

(** [s.split(" ")]: the fields between single spaces. *)
Fixpoint split_space (s : string) : list string :=
  match s with
  | EmptyString => [EmptyString]
  | String c s' =>
      if Ascii.eqb c space then EmptyString :: split_space s'
      else match split_space s' with
           | [] => [String c EmptyString]
           | f :: fs => String c f :: fs
           end
  end.

(** [" ".join(l)]. *)
Fixpoint join_space (l : list string) : string :=
  match l with
  | [] => EmptyString
  | [x] => x
  | x :: l' => x +:+ String space (join_space l')
  end.

(** The exceptions of Part I, the one [str + int] raises and the one a
    missing attribute raises. *)
Inductive pyexn : Set :=
  | Std (e : exn)
  | TypeError
  | AttributeError.

Inductive result (A : Type) : Type :=
  | Done (a : A)
  | Failed (e : pyexn).
Arguments Done {A} a.
Arguments Failed {A} e.

(** The unpacking of a string into two targets, as in
    [for component, module_name in d] over the keys of a dictionary. *)
Definition unpack_pair (s : string) : outcome (string * string) :=
  match s with
  | String a (String b EmptyString) =>
      Returned (String a EmptyString, String b EmptyString)
  | _ => Raised ValueError
  end.

(** A state-passing step over the files that stops at the first raise. *)
Definition and_then (step1 step2 : filesystem -> outcome unit * filesystem)
    (fs : filesystem) : outcome unit * filesystem :=
  match step1 fs with
  | (Returned _, fs') => step2 fs'
  | (Raised e, fs') => (Raised e, fs')
  end.

(** [if x is not None: <setter>(x)]. *)
Definition when_given {A} (x : option A)
    (setter : A -> filesystem -> outcome unit * filesystem)
    (fs : filesystem) : outcome unit * filesystem :=
  match x with
  | Some a => setter a fs
  | None => (Returned tt, fs)
  end.

(** What [run] writes on a line: the text and its newline, or nothing. *)
Definition write_line (k : nat) (text : option string) (lines : list string)
    : list string :=
  match text with
  | Some t => <[k := t +:+ String newline EmptyString]> lines
  | None => lines
  end.

Section Builtins.

(** Python's [str] and [int] on integers and strings. *)
Variable py_str : Z -> string.
Variable py_int : string -> outcome Z.

(** The model-data table of [__init__], read through pandas: the rows of a
    component, their [module_number] column, and the name selected by a
    module number. *)
Variable table : Type.
Variable column : Type.
Variable component_table : string -> outcome table.
Variable module_number : table -> outcome column.
Variable module_name_where : table -> column -> Z -> outcome string.

(** What the program started by [os.system] does to the files of a model
    directory. *)
Variable aquimod : string -> filesystem -> filesystem.

(** The [module_config] getter (lines 38-46). *)
Definition module_config (self : AquiModAWS) (fs : filesystem)
    : outcome (dict Z) :=
  match _read_line self (input_path self) 1 fs with
  | Raised e => Raised e
  | Returned l =>
      let line := split_space l in
      match getitem line 0 with
      | None => Raised IndexError
      | Some f0 =>
      match py_int f0 with
      | Raised e => Raised e
      | Returned soil =>
      match getitem line 1 with
      | None => Raised IndexError
      | Some f1 =>
      match py_int f1 with
      | Raised e => Raised e
      | Returned unsaturated =>
      match getitem line 2 with
      | None => Raised IndexError
      | Some f2 =>
      match py_int f2 with
      | Raised e => Raised e
      | Returned saturated =>
          Returned [("soil", soil); ("unstaurated", unsaturated);
                    ("saturated", saturated)]
      end end end end end end
  end.

(** The [module_config] setter (lines 48-52). *)
Definition set_module_config (self : AquiModAWS) (config : list Z)
    (fs : filesystem) : outcome unit * filesystem :=
  _edit_line self (input_path self) 1 (join_space (map py_str config)) fs.

(** The [simulation_mode] property (lines 54-62). *)
Definition simulation_mode (self : AquiModAWS) (fs : filesystem)
    : outcome string :=
  _read_line self (input_path self) 4 fs.

Definition set_simulation_mode (self : AquiModAWS) (mode : string)
    (fs : filesystem) : outcome unit * filesystem :=
  _edit_line self (input_path self) 4 mode fs.

(** The [number_of_runs] property (lines 64-72): the getter hands back the
    line as it is, a string. *)
Definition number_of_runs (self : AquiModAWS) (fs : filesystem)
    : outcome string :=
  _read_line self (input_path self) 10 fs.

Definition set_number_of_runs (self : AquiModAWS) (num_runs : Z)
    (fs : filesystem) : outcome unit * filesystem :=
  _edit_line self (input_path self) 10 (py_str num_runs) fs.

(** The [calibrated_variable] setter (lines 79-82). *)
Definition set_calibrated_variable (self : AquiModAWS) (variable : string)
    (fs : filesystem) : outcome unit * filesystem :=
  _edit_line self (input_path self) 7 variable fs.

(** [df_dict] of [module_names]: one table per component, in order. *)
Fixpoint df_dict (cs : list string) : outcome (dict table) :=
  match cs with
  | [] => Returned []
  | c :: cs' =>
      match component_table c with
      | Raised e => Raised e
      | Returned df =>
          match df_dict cs' with
          | Raised e => Raised e
          | Returned d => Returned ((c, df) :: d)
          end
      end
  end.

(** The dictionary comprehension of [module_names] (lines 96-101): for every
    component the [module_number] column is taken, then
    [modules[component]] is looked up, then the name is selected. *)
Fixpoint names_from (modules : dict Z) (tables : dict table)
    : outcome (dict string) :=
  match tables with
  | [] => Returned []
  | (component, df) :: tables' =>
      match module_number df with
      | Raised e => Raised e
      | Returned col =>
          match dict_get modules component with
          | None => Raised KeyError
          | Some number =>
              match module_name_where df col number with
              | Raised e => Raised e
              | Returned name =>
                  match names_from modules tables' with
                  | Raised e => Raised e
                  | Returned d => Returned ((component, name) :: d)
                  end
              end
          end
      end
  end.

(** The [module_names] property (lines 84-101). *)
Definition module_names (self : AquiModAWS) (fs : filesystem)
    : outcome (dict string) :=
  match df_dict components with
  | Raised e => Raised e
  | Returned tables =>
      match module_config self fs with
      | Raised e => Raised e
      | Returned modules => names_from modules tables
      end
  end.

(** The comprehension of [calibration_paths] and [evaluation_paths]
    (lines 130-133 and 138-141): the loop runs over the dictionary itself,
    that is over its keys, and unpacks every key into two names. *)
Fixpoint paths_from_keys (self : AquiModAWS) (directory suffix : string)
    (keys : list string) : outcome (dict string) :=
  match keys with
  | [] => Returned []
  | key :: keys' =>
      match unpack_pair key with
      | Raised e => Raised e
      | Returned (component, name) =>
          match paths_from_keys self directory suffix keys' with
          | Raised e => Raised e
          | Returned d =>
              Returned ((component,
                         model_dir self +:+ "/" +:+ directory +:+ "/"
                         +:+ name +:+ suffix) :: d)
          end
      end
  end.

(** The path properties are stated over any [module_names], as
    [output_calibration_paths] is in Part I. *)
Variable module_name : string -> filesystem -> outcome string.

Definition calibration_paths (self : AquiModAWS) (fs : filesystem)
    : outcome (dict string) :=
  match Files.module_names module_name fs with
  | Raised e => Raised e
  | Returned names =>
      paths_from_keys self "Calibration" "_calib.txt" (map fst names)
  end.

Definition evaluation_paths (self : AquiModAWS) (fs : filesystem)
    : outcome (dict string) :=
  match Files.module_names module_name fs with
  | Raised e => Raised e
  | Returned names =>
      paths_from_keys self "Evaluation" "_eval.txt" (map fst names)
  end.

(** [self.number_of_runs + 1]: the getter hands back a string, and a string
    plus an integer raises. *)
Definition str_plus_int (s : string) (n : Z) : result Z := Failed TypeError.

(** The loop of [output_evaluation_paths] (lines 165-170). *)
Fixpoint time_series_paths (self : AquiModAWS) (fs : filesystem)
    (names : dict string) : result (dict (list string)) :=
  match names with
  | [] => Done []
  | (component, module) :: names' =>
      match number_of_runs self fs with
      | Raised e => Failed (Std e)
      | Returned runs =>
          match str_plus_int runs 1 with
          | Failed e => Failed e
          | Done stop =>
              let path_list :=
                map (fun i => output_file self
                                (module +:+ "_TimeSeries"
                                 +:+ py_str (Z.of_nat i) +:+ ".out"))
                    (seq 1 (Z.to_nat stop - 1)) in
              match time_series_paths self fs names' with
              | Failed e => Failed e
              | Done d => Done ((component, path_list) :: d)
              end
          end
      end
  end.

(** The [output_evaluation_paths] property (lines 157-175): the dictionary
    is built and the body ends without a [return]. *)
Definition output_evaluation_paths (self : AquiModAWS) (fs : filesystem)
    : result pyvalue :=
  match Files.module_names module_name fs with
  | Raised e => Failed (Std e)
  | Returned names =>
      match time_series_paths self fs names with
      | Failed e => Failed e
      | Done path_dict =>
          match calibrated_variable self fs with
          | Raised e => Failed (Std e)
          | Returned v =>
              if py_eq_str v "g" then Done PyNone
              else
                match calibrated_variable self fs with
                | Raised e => Failed (Std e)
                | Returned v' => Done PyNone
                end
          end
      end
  end.

(** [run] (lines 222-239): the setters of the arguments that are given, in
    the order of the source, then the program. *)
Definition run (self : AquiModAWS) (config : option (list Z))
    (sim_mode calib_var : option string) (num_runs : option Z)
    (fs : filesystem) : outcome unit * filesystem :=
  and_then (when_given config (set_module_config self))
    (and_then (when_given sim_mode (set_simulation_mode self))
       (and_then (when_given calib_var (set_calibrated_variable self))
          (and_then (when_given num_runs (set_number_of_runs self))
             (fun fs' => (Returned tt, aquimod (model_dir self) fs')))))
    fs.

End Builtins.

Arguments df_dict {table} component_table cs.
Arguments names_from {table column} module_number module_name_where
  modules tables.
Arguments module_names py_int {table column} component_table module_number
  module_name_where self fs.

(** [str] and [int] on plain decimal numerals, to run the definitions
    on. *)
Definition numeral_str (n : Z) : string := pretty n.

Definition digit_of (c : Ascii.ascii) : option Z :=
  let n := Ascii.nat_of_ascii c in
  if (48 <=? n)%nat && (n <=? 57)%nat then Some (Z.of_nat (n - 48)) else None.

Fixpoint decimal (acc : Z) (s : string) : option Z :=
  match s with
  | EmptyString => Some acc
  | String c s' =>
      match digit_of c with
      | Some d => decimal (10 * acc + d) s'
      | None => None
      end
  end.

Definition numeral_int (s : string) : outcome Z :=
  match s with
  | EmptyString => Raised ValueError
  | _ => match decimal 0 s with
         | Some n => Returned n
         | None => Raised ValueError
         end
  end.

(** An input file of eleven lines and a model directory. *)
Definition demo_self : AquiModAWS := {| model_dir := "m" |}.

Definition demo_lines : list string :=
  map (fun l => l +:+ String newline EmptyString)
      ["components"; "1 1 1"; ""; "mode"; "c"; ""; "variable"; "g"; "";
       "runs"; "10"].

Definition demo_files : filesystem :=
  {[ "m/Input.txt" := writelines demo_lines ]}.

(** An input file cut after its eighth line. *)
Definition short_files : filesystem :=
  {[ "m/Input.txt" := writelines (take 8 demo_lines) ]}.

End Input.

(** ** Part IV: [read_performance_output], [_cce] and [calibrate] *)

Module Calibration.

Import Files SCE Input.

(** An outcome of Parts I and III among the results of this part. *)
Definition of_outcome {A} (o : outcome A) : result A :=
  match o with
  | Returned a => Done a
  | Raised e => Failed (Std e)
  end.

(** [d[k]] on a dictionary. *)
Definition dict_item {V} (d : dict V) (k : string) : result V :=
  match dict_get d k with
  | Some v => Done v
  | None => Failed (Std KeyError)
  end.

(** [df.name(...)] for a name that is no attribute of [DataFrame]: the
    lookup falls back on the columns.  Without a column of that name it
    raises [AttributeError]; with one it yields the column, and calling a
    column raises [TypeError]. *)
Definition missing_method (name : string) (df : DataFrame) : pyexn :=
  if decide (name ∈ columns df) then TypeError else AttributeError.

(** The operands of line 319: integers and a [range]. *)
Inductive operand : Set :=
  | Int (n : Z)
  | Range (start stop : Z).

(** [a + b]: defined between integers; a [range] has no addition. *)
Definition py_add (a b : operand) : result operand :=
  match a, b with
  | Int x, Int y => Done (Int (x + y))
  | _, _ => Failed TypeError
  end.

(** [range(start, stop)]: both bounds are integers. *)
Definition py_range (start stop : operand) : result operand :=
  match start, stop with
  | Int a, Int b => Done (Range a b)
  | _, _ => Failed TypeError
  end.

(** The weight column of line 319 as far as it gets:
    [m + 1 + range(1, m + 1)], the operand of the product by 2.  The
    product and the quotient by [m * (m + 1)] receive nothing. *)
Definition weight_column (m : Z) : result operand :=
  match py_add (Int m) (Int 1) with
  | Failed e => Failed e
  | Done base =>
      match py_add (Int m) (Int 1) with
      | Failed e => Failed e
      | Done stop =>
          match py_range (Int 1) stop with
          | Failed e => Failed e
          | Done ranks => py_add base ranks
          end
      end
  end.

(** The default values of [reflection_coef] and [contraction_coef]. *)
Definition default_reflection_coef : Q := 1.
Definition default_contraction_coef : Q := 1 # 2.

(** A path in the spelling the store keeps: no empty segment but a leading
    one, no segment [.] or [..].  For such a [model_dir],
    [Path(model_dir, name)] is [model_dir/name]. *)
Definition slash : Ascii.ascii := Ascii.ascii_of_nat 47.

Fixpoint segments (s : string) : list string :=
  match s with
  | EmptyString => [EmptyString]
  | String c s' =>
      if Ascii.eqb c slash then EmptyString :: segments s'
      else match segments s' with
           | [] => [String c EmptyString]
           | f :: fs => String c f :: fs
           end
  end.

Definition plain_segment (x : string) : bool :=
  negb (String.eqb x "") && negb (String.eqb x ".")
  && negb (String.eqb x "..").

Definition plain_path (s : string) : bool :=
  match segments s with
  | [] => false
  | first :: rest =>
      (String.eqb first "" || plain_segment first)
      && forallb plain_segment rest
      && negb (String.eqb s "")
  end.

Section Program.

(** Python's [str] on integers, and the program started by [os.system]. *)
Variable py_str : Z -> string.
Variable aquimod : string -> filesystem -> filesystem.

(** The query of [module_names] for one component, as in Parts I and
    III. *)
Variable module_name : string -> filesystem -> outcome string.

(** pandas: [pd.read_csv(path, sep="\t", index_col=False)],
    [pd.concat(tables, axis=1)] and the text [df.to_csv] writes. *)
Variable read_csv : string -> filesystem -> result DataFrame.
Variable concat : list DataFrame -> result DataFrame.
Variable to_csv : DataFrame -> string.

(** [_read_data] (lines 29-31). *)
Definition _read_data (self : AquiModAWS) (path : string)
    (fs : filesystem) : result DataFrame :=
  read_csv path fs.

(** [{component: self._read_data(path) for component, path in
    paths.items()}]. *)
Fixpoint read_tables (self : AquiModAWS) (paths : dict string)
    (fs : filesystem) : result (dict DataFrame) :=
  match paths with
  | [] => Done []
  | (component, path) :: paths' =>
      match _read_data self path fs with
      | Failed e => Failed e
      | Done df =>
          match read_tables self paths' fs with
          | Failed e => Failed e
          | Done d => Done ((component, df) :: d)
          end
      end
  end.

(** [read_performance_output] (lines 241-263).  In evaluation mode the
    subscript [self.output_evaluation_paths["fit"]] is applied to what the
    property returns, [None]; in a mode that is neither ["c"] nor ["e"] the
    body ends without a [return]. *)
Definition read_performance_output (self : AquiModAWS) (fs : filesystem)
    : result (option (dict DataFrame)) :=
  match simulation_mode self fs with
  | Raised e => Failed (Std e)
  | Returned mode =>
      if String.eqb mode "c" then
        match output_calibration_paths module_name self fs with
        | Raised e => Failed (Std e)
        | Returned paths =>
            match read_tables self paths fs with
            | Failed e => Failed e
            | Done output => Done (Some output)
            end
        end
      else
        match simulation_mode self fs with
        | Raised e => Failed (Std e)
        | Returned mode' =>
            if String.eqb mode' "e" then
              match evaluation_paths module_name self fs with
              | Raised e => Failed (Std e)
              | Returned paths =>
                  match read_tables self paths fs with
                  | Failed e => Failed e
                  | Done output =>
                      match output_evaluation_paths py_str module_name
                              self fs with
                      | Failed e => Failed e
                      | Done _ => Failed TypeError
                      end
                  end
              end
            else Done None
        end
  end.

(** [_cce] (lines 269-390) as far as it gets: the tables of the complex
    are concatenated (line 313), their rows counted (line 315), and line
    318 calls [complx_df.sort_by], which [DataFrame] does not have.  The
    files are not touched. *)
Definition _cce (self : AquiModAWS) (complx : dict DataFrame)
    (simplx_size alpha : nat) (reflection_coef contraction_coef : Q)
    (fs : filesystem) : result pyvalue * filesystem :=
  match concat (map snd complx) with
  | Failed e => (Failed e, fs)
  | Done complx_df =>
      let m := length (rows complx_df) in
      (Failed (missing_method "sort_by" complx_df), fs)
  end.

(** The complex [calibrate] builds for [i] (lines 429-434): of every table
    of the population the rows the mask selects. *)
Definition complx_dict (population : dict DataFrame) (num_complexes i : nat)
    : dict DataFrame :=
  map (fun cd => (fst cd,
                  iloc (snd cd)
                       (bool_mask num_complexes i (length (rows (snd cd))))))
      population.

(** The loop of [calibrate] over [range(num_complexes)] (lines 428-436);
    [population.items()] needs a dictionary. *)
Fixpoint evolve_complexes (self : AquiModAWS)
    (population : option (dict DataFrame)) (num_complexes : nat)
    (todo : list nat) (simplex_size alpha : nat) (fs : filesystem)
    : result pyvalue * filesystem :=
  match todo with
  | [] => (Done PyNone, fs)
  | i :: todo' =>
      match population with
      | None => (Failed AttributeError, fs)
      | Some tables =>
          match _cce self (complx_dict tables num_complexes i) simplex_size
                     alpha default_reflection_coef default_contraction_coef
                     fs with
          | (Failed e, fs') => (Failed e, fs')
          | (Done _, fs') =>
              evolve_complexes self population num_complexes todo'
                               simplex_size alpha fs'
          end
      end
  end.

(** [calibrate] (lines 392-436). *)
Definition calibrate (self : AquiModAWS)
    (num_complexes complex_size simplex_size alpha : nat) (fs : filesystem)
    : result pyvalue * filesystem :=
  let sample_size := num_complexes * complex_size in
  match run py_str aquimod self None (Some "c") None
            (Some (Z.of_nat sample_size)) fs with
  | (Raised e, fs') => (Failed (Std e), fs')
  | (Returned _, fs') =>
      match read_performance_output self fs' with
      | Failed e => (Failed e, fs')
      | Done population =>
          evolve_complexes self population num_complexes
                           (seq 0 num_complexes) simplex_size alpha fs'
      end
  end.

(** The [evaluation_parameters] setter (lines 216-220): every table is
    written to the evaluation file of its component. *)
Fixpoint set_evaluation_parameters (self : AquiModAWS)
    (eval_dict : dict DataFrame) (fs : filesystem)
    : outcome unit * filesystem :=
  match eval_dict with
  | [] => (Returned tt, fs)
  | (component, df) :: eval_dict' =>
      match evaluation_paths module_name self fs with
      | Raised e => (Raised e, fs)
      | Returned paths =>
          match dict_get paths component with
          | None => (Raised KeyError, fs)
          | Some path =>
              set_evaluation_parameters self eval_dict'
                                        (<[path := to_csv df]> fs)
          end
      end
  end.

End Program.

(** *** The lines of [_cce] after line 318 *)

(** [complx["weight"]] of line 321: [complx] is the dictionary of the
    tables by component. *)
Definition complx_weight (complx : dict DataFrame) : result DataFrame :=
  dict_item complx "weight".

(** The state of numpy's generator: a position on its random tape, and the
    calls of [np.random.choice] so far with their arguments. *)
Record generator := {
  seed : nat;
  calls : list (list nat * nat * list Q)
}.

Definition M (A : Type) : Type := generator -> result A * generator.

Definition ret {A} (a : A) : M A := fun g => (Done a, g).

Definition raise {A} (e : pyexn) : M A := fun g => (Failed e, g).

Definition lift {A} (r : result A) : M A := fun g => (r, g).

Definition bind {A B} (c : M A) (k : A -> M B) : M B :=
  fun g =>
    match c g with
    | (Done a, g') => k a g'
    | (Failed e, g') => (Failed e, g')
    end.

Notation "'let!' x ':=' c 'in' k" := (bind c (fun x => k))
  (at level 10, x name, c at level 100, k at level 200).

(** [for _ in range(n)] around a body that updates one variable. *)
Fixpoint for_range {A} (n : nat) (body : A -> M A) (a : A) : M A :=
  match n with
  | O => ret a
  | S n' => let! a' := body a in for_range n' body a'
  end.

Section Simplex.

(** numpy and pandas: [np.random.choice(a, size, replace=False, p=p)] at a
    position of the tape, [df[name]], [df.loc[labels]] and
    [df.loc[labels] = rows]. *)
Variable choice : nat -> list nat -> nat -> list Q -> outcome (list nat).
Variable column : DataFrame -> string -> result (list Q).
Variable loc : DataFrame -> list nat -> result DataFrame.
Variable loc_assign : DataFrame -> list nat -> DataFrame -> result DataFrame.

Definition random_choice (a : list nat) (size : nat) (p : list Q)
    : M (list nat) :=
  fun g =>
    (of_outcome (choice (seed g) a size p),
     {| seed := S (seed g); calls := calls g ++ [(a, size, p)] |}).

(** The body of the loop (lines 329-388) as far as it gets: line 330 calls
    [simplx.sort_by]. *)
Definition cce_iteration (simplx : DataFrame) : M DataFrame :=
  raise (missing_method "sort_by" simplx).

(** Lines 323-390 of [_cce] on a table [complx_df]: the simplex is drawn,
    the loop runs over [range(alpha)], the simplex is assigned into the
    local table, which is dropped, and the body ends. *)
Definition draw_and_evolve (complx_df : DataFrame) (simplx_size alpha : nat)
    : M pyvalue :=
  let! p := lift (column complx_df "weight") in
  let! labels := random_choice (index complx_df) simplx_size p in
  let! simplx := lift (loc complx_df labels) in
  let! simplx := for_range alpha cce_iteration simplx in
  let! complx_df' := lift (loc_assign complx_df (index simplx) simplx) in
  ret PyNone.

End Simplex.

(** *** Stand-ins to run the definitions on *)

(** A [module_names] that fails the way the property does, at the second
    component. *)
Definition demo_module_name (c : string) (fs : filesystem) : outcome string :=
  if String.eqb c "soil" then Returned "FAO" else Raised KeyError.

(** A [module_names] whose queries all return. *)
Definition named_module (c : string) (fs : filesystem) : outcome string :=
  Returned ("Q" +:+ c).

(** Tables of eight rows wherever a file is asked for, and a concatenation
    that puts the columns of tables with the same index side by side. *)
Definition demo_table : DataFrame :=
  {| columns := ["x"];
     rows := map (fun k => (k, [inject_Z (Z.of_nat k)])) (seq 0 8) |}.

Definition demo_read_csv (path : string) (fs : filesystem)
    : result DataFrame :=
  Done demo_table.

Definition side_by_side (a b : DataFrame) : DataFrame :=
  {| columns := columns a ++ columns b;
     rows := zip_with (fun r r' => (fst r, snd r ++ snd r')) (rows a)
                      (rows b) |}.

Definition demo_concat (tables : list DataFrame) : result DataFrame :=
  match tables with
  | [] => Failed (Std ValueError)
  | df :: dfs => Done (fold_left side_by_side dfs df)
  end.

Definition demo_to_csv (df : DataFrame) : string := "table".

(** Complexes as [calibrate] would hand them to [_cce]: two points, three
    points, and three points whose worst one lies at a limit. *)
Definition demo_points : DataFrame :=
  {| columns := ["x"; "y"; "ObjectiveFunction"];
     rows := [(0%nat, [4; 2; -(1)]%Q); (1%nat, [2; 1; -(2)]%Q)] |}.

Definition demo_triple : DataFrame :=
  {| columns := ["x"; "y"; "ObjectiveFunction"];
     rows := [(0%nat, [3; 1; -(1)]%Q); (2%nat, [6; 1; -(10)]%Q);
              (4%nat, [9; 1; -(37)]%Q)] |}.

Definition demo_outlier : DataFrame :=
  {| columns := ["x"; "y"; "ObjectiveFunction"];
     rows := [(0%nat, [1; 1; -(5)]%Q); (3%nat, [2; 4; -(5)]%Q);
              (1%nat, [10; 4; -(53)]%Q)] |}.

(** A complex of three rows with its weight column, and a generator. *)
Definition demo_complex : DataFrame :=
  {| columns := ["x"; "ObjectiveFunction"; "weight"];
     rows := [(0%nat, [3; -(1); 1 # 2]%Q); (2%nat, [6; -(4); 1 # 4]%Q);
              (4%nat, [9; -(9); 1 # 4]%Q)] |}.

Definition demo_choice (seed : nat) (a : list nat) (size : nat) (p : list Q)
    : outcome (list nat) :=
  if (length a <? size)%nat then Raised ValueError
  else Returned (take size (rotate seed a)).

Definition demo_column (df : DataFrame) (name : string) : result (list Q) :=
  match list_find (String.eqb name) (columns df) with
  | None => Failed (Std KeyError)
  | Some (k, _) => Done (map (fun r => nth k (snd r) 0%Q) (rows df))
  end.

Definition demo_loc (df : DataFrame) (labels : list nat) : result DataFrame :=
  match mapM (fun l => list_find (fun r => Nat.eqb (fst r) l) (rows df))
             labels with
  | None => Failed (Std KeyError)
  | Some found => Done {| columns := columns df; rows := map snd found |}
  end.

Definition demo_loc_assign (df : DataFrame) (labels : list nat)
    (new : DataFrame) : result DataFrame :=
  Done {| columns := columns df;
          rows := map (fun r =>
                         match list_find (fun r' => Nat.eqb (fst r') (fst r))
                                         (rows new) with
                         | Some (_, r') =>
                             if decide (fst r ∈ labels) then r' else r
                         | None => r
                         end) (rows df) |}.

Definition fresh : generator := {| seed := 0; calls := [] |}.

End Calibration.

(** * Properties *)

Import Files.

(** ** Text files *)

Section FileFacts.

Implicit Types (fs : filesystem) (self : AquiModAWS) (path text : string).

Lemma py_index_bound {A} (l : list A) (i : Z) (k : nat) :
  py_index l i = Some k -> (k < length l)%nat.
Proof.
  unfold py_index.
  destruct ((0 <=? i)%Z && (i <? Z.of_nat (length l))%Z) eqn:E1.
  - apply andb_true_iff in E1 as [H1 H2].
    intros [= <-]. apply Z.leb_le in H1. apply Z.ltb_lt in H2. lia.
  - destruct ((- Z.of_nat (length l) <=? i)%Z && (i <? 0)%Z) eqn:E2;
      [|discriminate].
    apply andb_true_iff in E2 as [H1 H2].
    intros [= <-]. apply Z.leb_le in H1. apply Z.ltb_lt in H2. lia.
Qed.

Lemma py_index_nonneg {A} (l : list A) (k : nat) :
  (k < length l)%nat -> py_index l (Z.of_nat k) = Some k.
Proof.
  intros Hk. unfold py_index.
  replace (0 <=? Z.of_nat k)%Z with true by (symmetry; apply Z.leb_le; lia).
  replace (Z.of_nat k <? Z.of_nat (length l))%Z with true
    by (symmetry; apply Z.ltb_lt; lia).
  simpl. by rewrite Nat2Z.id.
Qed.

Lemma py_index_short {A} (l : list A) (k : nat) :
  (length l <= k)%nat -> py_index l (Z.of_nat k) = None.
Proof.
  intros Hk. unfold py_index.
  replace (Z.of_nat k <? Z.of_nat (length l))%Z with false
    by (symmetry; apply Z.ltb_ge; lia).
  replace (Z.of_nat k <? 0)%Z with false by (symmetry; apply Z.ltb_ge; lia).
  by rewrite !andb_false_r.
Qed.

Lemma getitem_is_Some {A} (l : list A) (i : Z) :
  is_Some (getitem l i) <-> is_Some (py_index l i).
Proof.
  unfold getitem. destruct (py_index l i) as [k|] eqn:Hk; simpl.
  - split; [eauto|intros _]. apply lookup_lt_is_Some.
    by eapply py_index_bound.
  - split; intros [? ?]; discriminate.
Qed.

Lemma setitem_is_Some {A} (l : list A) (i : Z) (x : A) :
  is_Some (setitem l i x) <-> is_Some (py_index l i).
Proof.
  unfold setitem. destruct (py_index l i); simpl.
  - split; eauto.
  - split; intros [? ?]; discriminate.
Qed.

(** What [_edit_line] does on a file it can read and a line it has. *)
Lemma edit_line_returns self path n text fs content k :
  fs !! path = Some content ->
  py_index (readlines content) n = Some k ->
  _edit_line self path n text fs =
    (Returned tt,
     <[input_path self :=
         writelines (<[k := text +:+ String newline EmptyString]>
                       (readlines content))]> fs).
Proof.
  intros Hc Hk. unfold _edit_line, setitem. by rewrite Hc, Hk.
Qed.
(** Editing a calibration file through [_edit_line] leaves that file as it
    was and replaces the input file by the edited copy. *)
Example edit_line_other_file :
  let self := {| model_dir := "m" |} in
  let fs : filesystem :=
    {[ "m/Input.txt" := "a" +:+ String newline "b";
       "m/calib.txt" := "x" +:+ String newline "y" ]} in
  let r := _edit_line self "m/calib.txt" 0 "z" fs in
  r.1 = Returned tt /\
  r.2 !! "m/calib.txt" = Some ("x" +:+ String newline "y") /\
  r.2 !! "m/Input.txt" = Some ("z" +:+ String newline "y").
Proof. vm_compute. done. Qed.

Lemma read_line_returns self path fs content (k : nat) :
  fs !! path = Some content ->
  (k < length (readlines content))%nat ->
  exists l, readlines content !! k = Some l /\
            _read_line self path (Z.of_nat k) fs = Returned (strip_newlines l).
Proof.
  intros Hc Hk. unfold _read_line, getitem. rewrite Hc.
  rewrite py_index_nonneg by done. simpl.
  destruct (lookup_lt_is_Some_2 _ _ Hk) as [l Hl]. rewrite Hl. eauto.
Qed.

(** The getter never hands back the text of the line. *)
Lemma calibrated_variable_never_str self fs v :
  calibrated_variable self fs = Returned v -> v = PyNone.
Proof.
  unfold calibrated_variable.
  destruct (_read_line self (input_path self) 7 fs); congruence.
Qed.

Lemma names_of_keys module_name cs fs names :
  names_of module_name cs fs = Returned names -> map fst names = cs.
Proof.
  revert names. induction cs as [|c cs IH]; intros names; simpl.
  - by intros [= <-].
  - destruct (module_name c fs); [|discriminate].
    destruct (names_of module_name cs fs); [|discriminate].
    intros [= <-]. simpl. f_equal. by apply IH.
Qed.

Lemma dict_get_None {V} (d : dict V) (k : string) :
  k ∉ map fst d -> dict_get d k = None.
Proof.
  induction d as [|[k' v] d IH]; simpl; [done|].
  intros Hk. apply not_elem_of_cons in Hk as [Hne Hk].
  destruct (String.eqb_spec k' k); [congruence|auto].
Qed.

(** In no state of the files does [output_calibration_paths] hand back a
    dictionary with a ["fit"] key. *)
Lemma output_calibration_paths_no_fit module_name self fs paths :
  output_calibration_paths module_name self fs = Returned paths ->
  dict_get paths "fit" = None /\ map fst paths = components.
Proof.
  unfold output_calibration_paths, module_names.
  destruct (names_of module_name components fs) as [names|] eqn:Hn;
    [|discriminate].
  apply names_of_keys in Hn.
  destruct (calibrated_variable self fs) as [v|] eqn:Hv; [|discriminate].
  apply calibrated_variable_never_str in Hv as ->. simpl.
  intros [= <-].
  assert (Hk : map fst (map (fun cm => (cm.1, output_file self
                   (cm.2 +:+ "_calib.out"))) names) = components).
  { rewrite <- Hn. rewrite map_map. by apply map_ext. }
  split; [|done]. apply dict_get_None. rewrite Hk.
  unfold components. intros Hin.
  repeat (apply elem_of_cons in Hin as [Hin|Hin]; [discriminate|]).
  by apply elem_of_nil in Hin.
Qed.

(** C10, refuted as stated: on an input file without a line 7 the getter
    raises instead of returning [None]. *)
Lemma calibrated_variable_short_input_raises :
  let self := {| model_dir := "m" |} in
  let fs : filesystem := {[ "m/Input.txt" := "c" +:+ String newline "g" ]} in
  calibrated_variable self fs = Raised IndexError /\
  calibrated_variable self fs <> Returned PyNone.
Proof. split; [by vm_compute|]. vm_compute. discriminate. Qed.

(** C10, amended: whenever the input file has a line 7 the getter returns
    [None], whatever the line says; on an input file of at most seven
    lines it raises [IndexError], on a missing one [FileNotFoundError].
    What it returns equals neither ["g"] nor ["s"], so whatever
    [module_names] does, [output_calibration_paths] never returns a
    dictionary with a ["fit"] entry: when [module_names] returns and the
    input file has a line 7 it returns one path per component, and it
    returns in no other case. *)
Theorem calibrated_variable_returns_None module_name self fs :
  (forall content, fs !! input_path self = Some content ->
     (7 < length (readlines content))%nat ->
     calibrated_variable self fs = Returned PyNone) /\
  (forall content, fs !! input_path self = Some content ->
     (length (readlines content) <= 7)%nat ->
     calibrated_variable self fs = Raised IndexError) /\
  (fs !! input_path self = None ->
     calibrated_variable self fs = Raised FileNotFoundError) /\
  (forall v, calibrated_variable self fs = Returned v ->
     py_eq_str v "g" = false /\ py_eq_str v "s" = false) /\
  (forall paths,
     output_calibration_paths module_name self fs = Returned paths ->
     dict_get paths "fit" = None /\ map fst paths = components /\
     exists names content,
       module_names module_name fs = Returned names /\
       fs !! input_path self = Some content /\
       (7 < length (readlines content))%nat /\
       paths = map (fun cm => (cm.1, output_file self
                                       (cm.2 +:+ "_calib.out"))) names) /\
  (forall names content,
     module_names module_name fs = Returned names ->
     fs !! input_path self = Some content ->
     (7 < length (readlines content))%nat ->
     output_calibration_paths module_name self fs
     = Returned (map (fun cm => (cm.1, output_file self
                                         (cm.2 +:+ "_calib.out"))) names)).
Proof.
  assert (Hret : forall content, fs !! input_path self = Some content ->
            (7 < length (readlines content))%nat ->
            calibrated_variable self fs = Returned PyNone).
  { intros content Hc Hlen. unfold calibrated_variable.
    destruct (read_line_returns self _ fs content 7 Hc Hlen) as (l & _ & Hr).
    change (Z.of_nat 7) with 7%Z in Hr. by rewrite Hr. }
  assert (Hshort : forall content, fs !! input_path self = Some content ->
            (length (readlines content) <= 7)%nat ->
            calibrated_variable self fs = Raised IndexError).
  { intros content Hc Hlen. unfold calibrated_variable, _read_line, getitem.
    rewrite Hc. change 7%Z with (Z.of_nat 7).
    by rewrite py_index_short. }
  assert (Hmissing : fs !! input_path self = None ->
            calibrated_variable self fs = Raised FileNotFoundError).
  { intros Hc. unfold calibrated_variable, _read_line. by rewrite Hc. }
  split; [exact Hret|]. split; [exact Hshort|]. split; [exact Hmissing|].
  split; [|split].
  - intros v Hv. by apply calibrated_variable_never_str in Hv as ->.
  - intros paths Ho.
    destruct (output_calibration_paths_no_fit _ _ _ _ Ho) as [Hfit Hkeys].
    split; [done|]. split; [done|].
    unfold output_calibration_paths in Ho.
    destruct (module_names module_name fs) as [names|] eqn:Hn;
      [|discriminate].
    destruct (fs !! input_path self) as [content|] eqn:Hc.
    2:{ rewrite Hmissing in Ho by done. discriminate. }
    destruct (decide (7 < length (readlines content))%nat) as [Hlen|Hlen].
    2:{ rewrite (Hshort content) in Ho by (done || lia). discriminate. }
    exists names, content. rewrite (Hret content) in Ho by done.
    simpl in Ho. by injection Ho as <-.
  - intros names content Hn Hc Hlen.
    unfold output_calibration_paths. rewrite Hn.
    by rewrite (Hret content).
Qed.

End FileFacts.

(** The line 7 of this input file says ["g"], and the getter still returns
    [None]; [output_calibration_paths] has no ["fit"] entry. *)
Example calibrated_variable_ignores_the_line :
  let self := {| model_dir := "m" |} in
  let nl := String newline EmptyString in
  let content :=
    "h" +:+ nl +:+ "1 1 1" +:+ nl +:+ nl +:+ "h" +:+ nl +:+ "c" +:+ nl +:+ nl
    +:+ "h" +:+ nl +:+ "g" +:+ nl +:+ nl +:+ "h" +:+ nl +:+ "10" +:+ nl in
  let fs : filesystem := {[ "m/Input.txt" := content ]} in
  let module_name := fun (c : string) (_ : filesystem) =>
                       Returned ("Q" +:+ c) in
  _read_line self (input_path self) 7 fs = Returned "g" /\
  calibrated_variable self fs = Returned PyNone /\
  output_calibration_paths module_name self fs
  = Returned [("soil", "m/Output/Qsoil_calib.out");
              ("unsaturated", "m/Output/Qunsaturated_calib.out");
              ("saturated", "m/Output/Qsaturated_calib.out")].
Proof. repeat split; by vm_compute. Qed.

(** ** Partition *)

Import SCE.

Section PartitionFacts.

Context {A : Type}.
Implicit Types (df population : list A) (p i j k m : nat).

Lemma iloc_mask_app (m1 m2 : list bool) (l1 l2 : list A) :
  length m1 = length l1 ->
  iloc_mask (m1 ++ m2) (l1 ++ l2) = iloc_mask m1 l1 ++ iloc_mask m2 l2.
Proof.
  revert l1. induction m1 as [|b m1 IH]; intros [|x l1] Hlen;
    try discriminate; simpl; [done|].
  injection Hlen as Hlen. rewrite IH by done. by destruct b.
Qed.

(** A row appended to the table goes to the complex its position selects
    and to no other. *)
Lemma complx_of_snoc p i df x :
  complx_of p i (df ++ [x]) =
  complx_of p i df ++ (if Nat.eqb (length df mod p) i then [x] else []).
Proof.
  unfold complx_of, bool_mask.
  rewrite length_app. simpl length. rewrite seq_app, map_app.
  rewrite iloc_mask_app by (by rewrite length_map, length_seq).
  simpl. by destruct (Nat.eqb (length df mod p) i).
Qed.

Lemma mod_of_slot p i k : i < p -> (k * p + i) mod p = i.
Proof.
  intros Hi. rewrite Nat.add_comm, Nat.Div0.mod_add.
  by apply Nat.mod_small.
Qed.

Lemma slot_of_position p j : p <> 0 -> (j / p) * p + j mod p = j.
Proof. intros Hp. pose proof (Nat.div_mod_eq j p). lia. Qed.

(** The [k]-th row of complex [i] is the row of the table at position
    [k * p + i], for a table of any length. *)
Lemma complx_of_lookup p i df k :
  i < p -> complx_of p i df !! k = df !! (k * p + i).
Proof.
  intros Hi. revert k.
  induction df as [|x df IH] using rev_ind; intros k.
  - by rewrite !lookup_nil.
  - rewrite complx_of_snoc.
    assert (Hlen : forall k', k' < length (complx_of p i df) <->
                              k' * p + i < length df).
    { intros k'. rewrite <- !lookup_lt_is_Some. by rewrite IH. }
    destruct (Nat.eqb_spec (length df mod p) i) as [Hmod|Hmod].
    + assert (Hq : length (complx_of p i df) = length df / p).
      { pose proof (slot_of_position p (length df) ltac:(lia)) as Hn.
        rewrite Hmod in Hn.
        destruct (Nat.lt_trichotomy (length (complx_of p i df))
                    (length df / p)) as [Hlt|[Heq|Hgt]]; [|done|].
        - assert (length (complx_of p i df) * p + i < length df) by nia.
          apply Hlen in H. lia.
        - apply Hlen in Hgt. nia. }
      pose proof (slot_of_position p (length df) ltac:(lia)) as Hn.
      rewrite Hmod in Hn.
      destruct (Nat.lt_trichotomy k (length df / p)) as [Hlt|[Heq|Hgt]].
      * rewrite lookup_app_l by lia. rewrite lookup_app_l by nia. apply IH.
      * subst k. rewrite Hn.
        rewrite !list_lookup_middle; [done|done|lia].
      * rewrite !lookup_ge_None_2; [done| |].
        -- rewrite length_app. simpl. nia.
        -- rewrite length_app. simpl. lia.
    + rewrite app_nil_r. rewrite IH.
      destruct (decide (k * p + i = length df)) as [Heq|Hne].
      * exfalso. apply Hmod. rewrite <- Heq. by apply mod_of_slot.
      * destruct (decide (k * p + i < length df)).
        -- by rewrite lookup_app_l.
        -- rewrite !lookup_ge_None_2; [done| |lia].
           rewrite length_app. simpl. lia.
Qed.

Lemma complx_of_length_iff p i df k :
  i < p -> k < length (complx_of p i df) <-> k * p + i < length df.
Proof.
  intros Hi. rewrite <- !lookup_lt_is_Some. by rewrite complx_of_lookup.
Qed.

Lemma complx_of_length p i m df :
  i < p -> length df = p * m -> length (complx_of p i df) = m.
Proof.
  intros Hi Hlen.
  pose proof (complx_of_length_iff p i df) as H.
  destruct (Nat.lt_trichotomy (length (complx_of p i df)) m)
    as [Hlt|[Heq|Hgt]]; [|done|].
  - assert (length (complx_of p i df) * p + i < length df) by nia.
    apply H in H0; [lia|done].
  - apply H in Hgt; [nia|done].
Qed.

Lemma partition_lookup p i df :
  i < p -> partition p df !! i = Some (complx_of p i df).
Proof.
  intros Hi. unfold partition.
  rewrite list_lookup_fmap, lookup_seq_lt by done. done.
Qed.

Lemma partition_length p df : length (partition p df) = p.
Proof. unfold partition. by rewrite length_map, length_seq. Qed.

End PartitionFacts.

Lemma iloc_mask_map {A B} (g : A -> B) (mask : list bool) (l : list A) :
  iloc_mask mask (map g l) = map g (iloc_mask mask l).
Proof.
  revert l. induction mask as [|b mask IH]; intros [|x l]; simpl; try done.
  rewrite IH. by destruct b.
Qed.

(** The positions that go to complex [i]: the [j] below the length of the
    table with [j mod p = i], each once. *)
Lemma complx_positions_spec (p i len j : nat) :
  i < p ->
  j ∈ complx_positions p i len <-> j < len /\ j mod p = i.
Proof.
  intros Hi. unfold complx_positions.
  replace (iloc_mask (bool_mask p i len) (seq 0 len))
    with (complx_of p i (seq 0 len))
    by (unfold complx_of; by rewrite length_seq).
  rewrite list_elem_of_lookup. split.
  - intros [k Hk]. rewrite complx_of_lookup in Hk by done.
    apply lookup_seq in Hk as [-> Hlt]. simpl.
    split; [done|]. by apply mod_of_slot.
  - intros [Hj Hmod]. exists (j / p).
    rewrite complx_of_lookup by done.
    rewrite <- Hmod, slot_of_position by lia.
    by rewrite lookup_seq_lt.
Qed.

Lemma complx_positions_NoDup (p i len : nat) :
  i < p -> NoDup (complx_positions p i len).
Proof.
  intros Hi. unfold complx_positions.
  replace (iloc_mask (bool_mask p i len) (seq 0 len))
    with (complx_of p i (seq 0 len))
    by (unfold complx_of; by rewrite length_seq).
  apply NoDup_alt. intros k1 k2 j H1 H2.
  rewrite complx_of_lookup in H1, H2 by done.
  apply lookup_seq in H1 as [-> _]. apply lookup_seq in H2 as [H2 _].
  simpl in H2. nia.
Qed.

(** The rows of a complex are the rows of the table at its positions. *)
Lemma complx_of_positions {A} (p i : nat) (df : list A) (k : nat) :
  i < p ->
  complx_of p i df !! k =
  complx_positions p i (length df) !! k ≫= fun j => df !! j.
Proof.
  intros Hi. rewrite complx_of_lookup by done.
  unfold complx_positions.
  replace (iloc_mask (bool_mask p i (length df)) (seq 0 (length df)))
    with (complx_of p i (seq 0 (length df)))
    by (unfold complx_of; by rewrite length_seq).
  rewrite complx_of_lookup by done.
  destruct (decide (k * p + i < length df)) as [Hlt|Hge].
  - by rewrite lookup_seq_lt.
  - rewrite (lookup_ge_None_2 df) by lia.
    by rewrite lookup_seq_ge by lia.
Qed.

(** C7: on a population of [num_complexes * complex_size] rows the loop
    of [calibrate] puts the row at position [j] into complex
    [j mod num_complexes]; every complex has [complex_size] rows, which is
    the length of the population divided by [num_complexes]; the position
    sets of two different complexes share nothing and every position lies in
    one of them, once. *)
Theorem partition_round_robin {A} (num_complexes complex_size : nat)
    (population : list A) :
  length population = num_complexes * complex_size ->
  length (partition num_complexes population) = num_complexes /\
  (forall j x, population !! j = Some x ->
     exists c, partition num_complexes population !! (j mod num_complexes)
                 = Some c /\
               c !! (j / num_complexes) = Some x) /\
  (forall i c, partition num_complexes population !! i = Some c ->
     length c = complex_size /\
     length c = length population / num_complexes /\
     (forall k, c !! k =
        complx_positions num_complexes i (length population) !! k
          ≫= fun j => population !! j)) /\
  (forall i j, i < num_complexes ->
     j ∈ complx_positions num_complexes i (length population) <->
     j < length population /\ j mod num_complexes = i) /\
  (forall i, i < num_complexes ->
     NoDup (complx_positions num_complexes i (length population))) /\
  (forall i i' j, i < num_complexes -> i' < num_complexes -> i <> i' ->
     j ∈ complx_positions num_complexes i (length population) ->
     j ∉ complx_positions num_complexes i' (length population)) /\
  (forall j, j < length population ->
     exists i, i < num_complexes /\
       j ∈ complx_positions num_complexes i (length population)).
Proof.
  intros Hlen. set (p := num_complexes) in *.
  split; [apply partition_length|].
  assert (Hpos : forall j, j < length population -> p <> 0).
  { intros j Hj ->. simpl in Hlen. lia. }
  split; [|split; [|split; [|split; [|split]]]].
  - intros j x Hx.
    assert (Hp : p <> 0) by (eapply Hpos, lookup_lt_Some, Hx).
    assert (Hi : j mod p < p) by (by apply Nat.mod_upper_bound).
    exists (complx_of p (j mod p) population).
    split; [by apply partition_lookup|].
    rewrite complx_of_lookup by done.
    by rewrite slot_of_position.
  - intros i c Hc.
    assert (Hi : i < p).
    { apply lookup_lt_Some in Hc. by rewrite partition_length in Hc. }
    rewrite partition_lookup in Hc by done. injection Hc as <-.
    assert (Hm : length (complx_of p i population) = complex_size)
      by (by apply complx_of_length).
    split; [done|]. split.
    + rewrite Hm, Hlen. symmetry. rewrite Nat.mul_comm.
      apply Nat.div_mul. lia.
    + intros k. by apply complx_of_positions.
  - intros i j Hi. by apply complx_positions_spec.
  - intros i Hi. by apply complx_positions_NoDup.
  - intros i i' j Hi Hi' Hne Hin Hin'.
    apply complx_positions_spec in Hin as [_ H1]; [|done].
    apply complx_positions_spec in Hin' as [_ H2]; [|done].
    congruence.
  - intros j Hj. assert (Hp : p <> 0) by eauto.
    exists (j mod p). split; [by apply Nat.mod_upper_bound|].
    apply complx_positions_spec; [by apply Nat.mod_upper_bound|done].
Qed.

Lemma partition_round_robin_witness :
  length (partition 2 (seq 10 8)) = 2.
Proof.
  apply (partition_round_robin 2 4 (seq 10 8)). reflexivity.
Defined.


(** ** The centroid *)

Section CentroidFacts.

Local Open Scope Q_scope.

Lemma Qsum_app (l1 l2 : list Q) : Qsum (l1 ++ l2) == Qsum l1 + Qsum l2.
Proof.
  induction l1 as [|x l1 IH]; simpl; [lra|]. rewrite IH. lra.
Qed.

Lemma vadd_length (n : nat) (u v : vec) :
  length u = n -> length v = n -> length (vadd u v) = n.
Proof. intros Hu Hv. unfold vadd. rewrite length_zip_with. lia. Qed.

Lemma vadd_nth (k : nat) (u v : vec) :
  length u = length v -> (k < length u)%nat ->
  nth k (vadd u v) 0 = nth k u 0 + nth k v 0.
Proof.
  unfold vadd. revert k v.
  induction u as [|x u IH]; intros k [|y v] Hlen Hk; simpl in *;
    try lia.
  destruct k as [|k]; [done|]. apply IH; lia.
Qed.

Lemma fold_left_vadd_length (n : nat) (rs : list vec) (r : vec) :
  Forall (fun v => length v = n) rs -> length r = n ->
  length (fold_left vadd rs r) = n.
Proof.
  intros Hrs. revert r. induction Hrs as [|x rs Hx Hrs IH]; intros r Hr;
    simpl; [done|].
  apply IH. by apply vadd_length.
Qed.

(** The [k]-th column of the column sums is the sum of the [k]-th column. *)
Lemma fold_left_vadd_nth (n k : nat) (rs : list vec) (r : vec) :
  Forall (fun v => length v = n) rs -> length r = n -> (k < n)%nat ->
  nth k (fold_left vadd rs r) 0 == nth k r 0 + coordinate_sum k rs.
Proof.
  intros Hrs. revert r. unfold coordinate_sum.
  induction Hrs as [|x rs Hx Hrs IH]; intros r Hr Hk;
    cbn [fold_left map Qsum fold_right].
  - ring.
  - rewrite IH; [|by apply vadd_length|done].
    rewrite vadd_nth by lia. unfold Qsum. ring.
Qed.

Lemma mean_nth (n k : nat) (rows : list vec) :
  rows <> [] -> Forall (fun v => length v = n) rows -> (k < n)%nat ->
  nth k (mean rows) 0 * inject_Z (Z.of_nat (length rows))
  == coordinate_sum k rows.
Proof.
  intros Hne Hrows Hk. destruct rows as [|r rs]; [done|].
  inversion Hrows as [|?? Hr Hrs]; subst.
  unfold mean. simpl column_sum.
  set (q := inject_Z (Z.of_nat (length (r :: rs)))).
  assert (Hq : ~ q == 0).
  { unfold q. simpl length. rewrite Nat2Z.inj_succ.
    change 0 with (inject_Z 0). rewrite inject_Z_injective. lia. }
  pose proof (fold_left_vadd_length _ rs r Hrs eq_refl) as Hlen.
  rewrite (nth_indep _ 0 (0 / q)) by (rewrite length_map; lia).
  rewrite (map_nth (fun s => s / q)).
  rewrite (fold_left_vadd_nth (length r) k rs r) by done.
  unfold coordinate_sum. simpl. field. done.
Qed.

(** The mean of the rows without the last one and the mean of all the rows
    agree in a column exactly when the last row has the mean of the others
    there. *)
Lemma mean_with_last (b S w c c' : Q) :
  0 < b -> c * (b + 1) == S + w -> c' * b == S ->
  (c == c' <-> w == c').
Proof.
  intros Hb Hc Hc'. split; intros H.
  - rewrite H in Hc. lra.
  - assert (Hm : c * (b + 1) == c' * (b + 1)) by (rewrite Hc; lra).
    apply Qmult_inj_r in Hm; [done|lra].
Qed.

End CentroidFacts.




Import Input.

Section LineFacts.

Implicit Types (s body rest l text : string) (ls : list string).

Lemma append_nil s : EmptyString +:+ s = s.
Proof. reflexivity. Qed.

Lemma append_cons (c : Ascii.ascii) s1 s2 :
  String c s1 +:+ s2 = String c (s1 +:+ s2).
Proof. reflexivity. Qed.

Lemma append_empty s : s +:+ EmptyString = s.
Proof.
  induction s as [|c s IH]; [done|]. by rewrite append_cons, IH.
Qed.

Lemma has_char_app c s1 s2 :
  has_char c (s1 +:+ s2) = has_char c s1 || has_char c s2.
Proof.
  induction s1 as [|c' s1 IH]; rewrite ?append_nil, ?append_cons; simpl;
    [done|].
  by rewrite IH, orb_assoc.
Qed.

(** Splitting a text into lines loses nothing. *)
Lemma writelines_readlines s : writelines (readlines s) = s.
Proof.
  unfold writelines. induction s as [|c s IH]; simpl; [done|].
  destruct (Ascii.eqb c newline).
  - simpl. rewrite append_cons, append_nil. by rewrite IH.
  - destruct (readlines s) as [|l ls]; simpl in *;
      rewrite ?append_cons; by rewrite <- IH.
Qed.

Lemma readlines_terminated body rest :
  has_char newline body = false ->
  readlines ((body +:+ String newline EmptyString) +:+ rest)
  = (body +:+ String newline EmptyString) :: readlines rest.
Proof.
  induction body as [|c body IH]; rewrite ?append_nil, ?append_cons; simpl.
  - intros _. by rewrite ?append_nil, ?Ascii.eqb_refl.
  - intros Hc. apply orb_false_iff in Hc as [Hc Hbody].
    rewrite Hc, IH by done. done.
Qed.

Lemma readlines_rest l :
  l <> EmptyString -> has_char newline l = false -> readlines l = [l].
Proof.
  induction l as [|c l IH]; [done|]. simpl. intros _ Hc.
  apply orb_false_iff in Hc as [Hc Hl]. rewrite Hc.
  destruct l as [|c' l]; [done|]. by rewrite IH.
Qed.

Lemma readlines_lines_ok s : lines_ok (readlines s).
Proof.
  induction s as [|c s IH]; simpl; [constructor|].
  destruct (Ascii.eqb c newline) eqn:Hc.
  - apply Ascii.eqb_eq in Hc as ->. apply lines_ok_cons; [|done].
    by exists EmptyString.
  - destruct IH as [|l Hne Hl|l ls [body [-> Hbody]] Hls].
    + apply lines_ok_rest; [done|]. simpl. by rewrite Hc.
    + apply lines_ok_rest; [done|]. simpl. by rewrite Hc, Hl.
    + apply lines_ok_cons; [|done]. exists (String c body).
      split; [done|]. simpl. by rewrite Hc, Hbody.
Qed.

(** Lines of that shape are what [readlines] finds in their
    concatenation. *)
Lemma readlines_writelines ls :
  lines_ok ls -> readlines (writelines ls) = ls.
Proof.
  unfold writelines. induction 1 as [|l Hne Hl|l ls [body [-> Hbody]] _ IH].
  - done.
  - simpl. rewrite append_empty. by apply readlines_rest.
  - simpl. rewrite readlines_terminated by done. by rewrite IH.
Qed.

Lemma lines_ok_insert ls (k : nat) text :
  lines_ok ls -> has_char newline text = false ->
  lines_ok (<[k := text +:+ String newline EmptyString]> ls).
Proof.
  intros Hls Htext.
  assert (Hnew : terminated (text +:+ String newline EmptyString))
    by (by exists text).
  revert k. induction Hls as [|l Hne Hl|l ls Hterm Hls IH]; intros k.
  - constructor.
  - destruct k; simpl; [|by apply lines_ok_rest].
    apply lines_ok_cons; [done|constructor].
  - destruct k; simpl; apply lines_ok_cons; auto.
Qed.

Lemma strip_newlines_line text :
  has_char newline text = false ->
  strip_newlines (text +:+ String newline EmptyString) = text.
Proof.
  induction text as [|c text IH]; rewrite ?append_nil, ?append_cons; simpl.
  - intros _. by rewrite ?Ascii.eqb_refl.
  - intros Hc. apply orb_false_iff in Hc as [Hc Htext].
    by rewrite Hc, IH.
Qed.

Lemma py_index_same_length {A} (l1 l2 : list A) (i : Z) :
  length l1 = length l2 -> py_index l1 i = py_index l2 i.
Proof. intros Hlen. unfold py_index. by rewrite Hlen. Qed.

(** An edit of the input file whose lines are [lines]: the line is
    replaced and the others stay. *)
Lemma edit_input_line (self : AquiModAWS) (fs : filesystem) ls (k : nat)
    text :
  fs !! input_path self = Some (writelines ls) -> lines_ok ls ->
  (k < length ls)%nat ->
  _edit_line self (input_path self) (Z.of_nat k) text fs
  = (Returned tt,
     <[input_path self :=
         writelines (<[k := text +:+ String newline EmptyString]> ls)]> fs).
Proof.
  intros Hfs Hls Hk. unfold _edit_line, setitem. rewrite Hfs.
  rewrite readlines_writelines by done.
  by rewrite py_index_nonneg.
Qed.

Lemma edit_input_line_short (self : AquiModAWS) (fs : filesystem) ls
    (k : nat) text :
  fs !! input_path self = Some (writelines ls) -> lines_ok ls ->
  (length ls <= k)%nat ->
  _edit_line self (input_path self) (Z.of_nat k) text fs
  = (Raised IndexError, fs).
Proof.
  intros Hfs Hls Hk. unfold _edit_line, setitem. rewrite Hfs.
  rewrite readlines_writelines by done.
  by rewrite py_index_short.
Qed.

(** Reading a line of the input file whose lines are [lines]. *)
Lemma read_input_line (self : AquiModAWS) (fs : filesystem) ls (k : nat) :
  fs !! input_path self = Some (writelines ls) -> lines_ok ls ->
  _read_line self (input_path self) (Z.of_nat k) fs
  = match ls !! k with
    | Some l => Returned (strip_newlines l)
    | None => Raised IndexError
    end.
Proof.
  intros Hfs Hls. unfold _read_line, getitem. rewrite Hfs.
  rewrite readlines_writelines by done.
  destruct (ls !! k) as [l|] eqn:Hl.
  - rewrite py_index_nonneg by (by eapply lookup_lt_Some). simpl.
    by rewrite Hl.
  - rewrite py_index_short; [done|]. by apply lookup_ge_None.
Qed.

End LineFacts.

(** X1: after [_edit_line] has put a text without line breaks on line [n]
    of the file at [path], [_read_line] finds that text on line [n] of the
    input file, and on every other line of the input file what the file at
    [path] had there; the number of lines is that of the file at [path]. *)
Theorem edit_line_then_read_line (self : AquiModAWS) (path text : string)
    (n : Z) (k : nat) (fs : filesystem) (content : string) :
  fs !! path = Some content ->
  py_index (readlines content) n = Some k ->
  single_line text ->
  let r := _edit_line self path n text fs in
  fst r = Returned tt /\
  _read_line self (input_path self) n (snd r) = Returned text /\
  (forall j, py_index (readlines content) j <> Some k ->
     _read_line self (input_path self) j (snd r) = _read_line self path j fs)
  /\
  (exists content', snd r !! input_path self = Some content' /\
     length (readlines content') = length (readlines content)).
Proof.
  intros Hc Hk [Htext _]. cbv zeta.
  rewrite (edit_line_returns self path n text fs content k Hc Hk).
  simpl fst. simpl snd.
  set (lines' := <[k := text +:+ String newline EmptyString]>
                   (readlines content)).
  assert (Hok : lines_ok lines')
    by (apply lines_ok_insert; [apply readlines_lines_ok|done]).
  assert (Hlen : length lines' = length (readlines content))
    by apply length_insert.
  pose proof (py_index_bound _ _ _ Hk) as Hbound.
  split; [done|]. split; [|split].
  - unfold _read_line, getitem. rewrite lookup_insert_eq.
    rewrite readlines_writelines by done.
    rewrite (py_index_same_length lines' (readlines content)) by done.
    rewrite Hk. simpl. unfold lines'.
    rewrite list_lookup_insert_eq by done.
    by rewrite strip_newlines_line.
  - intros j Hj. unfold _read_line, getitem. rewrite lookup_insert_eq, Hc.
    rewrite readlines_writelines by done.
    rewrite (py_index_same_length lines' (readlines content)) by done.
    destruct (py_index (readlines content) j) as [j'|]; simpl; [|done].
    unfold lines'. rewrite list_lookup_insert_ne by congruence. done.
  - eexists. rewrite lookup_insert_eq. split; [done|].
    by rewrite readlines_writelines.
Qed.

Lemma edit_line_then_read_line_witness :
  let self := {| model_dir := "m" |} in
  let fs : filesystem :=
    {[ "m/Input.txt" := "a" +:+ String newline ("b" +:+ String newline "c") ]}
  in
  _read_line self (input_path self) (-2)
             (snd (_edit_line self (input_path self) (-2) "z" fs))
  = Returned "z".
Proof.
  intros self fs.
  apply (edit_line_then_read_line self (input_path self) "z" (-2) 1 fs
           ("a" +:+ String newline ("b" +:+ String newline "c"))).
  - by vm_compute.
  - by vm_compute.
  - split; by vm_compute.
Defined.

(** ** The properties of the input file *)

Section PropertyFacts.

Context (self : AquiModAWS) (fs : filesystem) (content : string).
Hypothesis input_content : fs !! input_path self = Some content.

(** A setter that puts [text] on line [k] of the input file, seen by
    [_read_line]. *)
Lemma set_line_then_read (k : nat) (text : string) :
  (k < length (readlines content))%nat ->
  has_char newline text = false ->
  let fs' := <[input_path self :=
                 writelines (<[k := text +:+ String newline EmptyString]>
                               (readlines content))]> fs in
  _edit_line self (input_path self) (Z.of_nat k) text fs = (Returned tt, fs')
  /\
  forall j : nat,
    _read_line self (input_path self) (Z.of_nat j) fs'
    = if decide (j = k) then Returned text
      else _read_line self (input_path self) (Z.of_nat j) fs.
Proof.
  intros Hk Htext fs'.
  assert (Hfs : fs !! input_path self
                = Some (writelines (readlines content)))
    by (by rewrite writelines_readlines).
  pose proof (readlines_lines_ok content) as Hok.
  split; [by apply edit_input_line|].
  intros j.
  rewrite (read_input_line self fs'
             (<[k := text +:+ String newline EmptyString]>
                (readlines content))).
  - rewrite (read_input_line self fs (readlines content)) by done.
    destruct (decide (j = k)) as [->|Hne].
    + rewrite list_lookup_insert_eq by done.
      by rewrite strip_newlines_line.
    + by rewrite list_lookup_insert_ne.
  - unfold fs'. by rewrite lookup_insert_eq.
  - by apply lines_ok_insert.
Qed.

(** X2: on an input file of more than four lines, setting
    [simulation_mode] to a text without line breaks makes the getter return
    that text and leaves what the other properties read ([module_config],
    line 7 and [calibrated_variable], [number_of_runs]) as it was. *)
Theorem simulation_mode_set_then_get (mode : string) :
  (4 < length (readlines content))%nat ->
  single_line mode ->
  let r := set_simulation_mode self mode fs in
  fst r = Returned tt /\
  simulation_mode self (snd r) = Returned mode /\
  number_of_runs self (snd r) = number_of_runs self fs /\
  (forall py_int, module_config py_int self (snd r)
                  = module_config py_int self fs) /\
  _read_line self (input_path self) 7 (snd r)
    = _read_line self (input_path self) 7 fs /\
  calibrated_variable self (snd r) = calibrated_variable self fs.
Proof.
  intros Hlen [Hmode _]. cbv zeta.
  destruct (set_line_then_read 4 mode Hlen Hmode) as [Hset Hread].
  unfold set_simulation_mode. change 4%Z with (Z.of_nat 4). rewrite Hset.
  simpl fst. simpl snd.
  unfold simulation_mode, number_of_runs, module_config, calibrated_variable.
  change 4%Z with (Z.of_nat 4). change 10%Z with (Z.of_nat 10).
  change 1%Z with (Z.of_nat 1). change 7%Z with (Z.of_nat 7).
  rewrite !Hread. simpl. repeat split; done.
Qed.

(** X3: on an input file of more than ten lines, setting [number_of_runs]
    to an integer makes the getter return the text [str] gives for it, a
    string and not an integer, and leaves what the other properties read
    as it was. *)
Theorem number_of_runs_set_then_get (py_str : Z -> string) (num_runs : Z) :
  (10 < length (readlines content))%nat ->
  single_line (py_str num_runs) ->
  let r := set_number_of_runs py_str self num_runs fs in
  fst r = Returned tt /\
  number_of_runs self (snd r) = Returned (py_str num_runs) /\
  simulation_mode self (snd r) = simulation_mode self fs /\
  (forall py_int, module_config py_int self (snd r)
                  = module_config py_int self fs) /\
  calibrated_variable self (snd r) = calibrated_variable self fs.
Proof.
  intros Hlen [Htext _]. cbv zeta.
  destruct (set_line_then_read 10 (py_str num_runs) Hlen Htext)
    as [Hset Hread].
  unfold set_number_of_runs. change 10%Z with (Z.of_nat 10). rewrite Hset.
  simpl fst. simpl snd.
  unfold simulation_mode, number_of_runs, module_config, calibrated_variable.
  change 4%Z with (Z.of_nat 4). change 10%Z with (Z.of_nat 10).
  change 1%Z with (Z.of_nat 1). change 7%Z with (Z.of_nat 7).
  rewrite !Hread. simpl. repeat split; done.
Qed.

(** X4: on an input file of more than seven lines, the
    [calibrated_variable] setter does put the variable on line 7, where
    [_read_line] finds it, and the getter still returns [None]; the other
    properties read what they read before. *)
Theorem calibrated_variable_set_then_get (variable : string) :
  (7 < length (readlines content))%nat ->
  single_line variable ->
  let r := set_calibrated_variable self variable fs in
  fst r = Returned tt /\
  _read_line self (input_path self) 7 (snd r) = Returned variable /\
  calibrated_variable self (snd r) = Returned PyNone /\
  simulation_mode self (snd r) = simulation_mode self fs /\
  number_of_runs self (snd r) = number_of_runs self fs /\
  (forall py_int, module_config py_int self (snd r)
                  = module_config py_int self fs).
Proof.
  intros Hlen [Htext _]. cbv zeta.
  destruct (set_line_then_read 7 variable Hlen Htext) as [Hset Hread].
  unfold set_calibrated_variable. change 7%Z with (Z.of_nat 7). rewrite Hset.
  simpl fst. simpl snd.
  unfold simulation_mode, number_of_runs, module_config, calibrated_variable.
  change 4%Z with (Z.of_nat 4). change 10%Z with (Z.of_nat 10).
  change 1%Z with (Z.of_nat 1). change 7%Z with (Z.of_nat 7).
  rewrite !Hread. simpl. repeat split; done.
Qed.

End PropertyFacts.

(** ** [split] and [join] *)

Section FieldFacts.

Lemma split_space_plain (s : string) :
  has_char space s = false -> split_space s = [s].
Proof.
  induction s as [|c s IH]; simpl; [done|].
  intros Hc. apply orb_false_iff in Hc as [Hc Hs].
  by rewrite Hc, IH.
Qed.

Lemma split_space_field (x y : string) :
  has_char space x = false ->
  split_space (x +:+ String space y) = x :: split_space y.
Proof.
  induction x as [|c x IH]; rewrite ?append_nil, ?append_cons; simpl.
  - done.
  - intros Hc. apply orb_false_iff in Hc as [Hc Hx].
    by rewrite Hc, IH.
Qed.

(** Fields without spaces come back from [split] as they went into
    [join]. *)
Lemma split_space_join (l : list string) :
  l <> [] -> Forall (fun x => has_char space x = false) l ->
  split_space (join_space l) = l.
Proof.
  intros Hne Hl. induction Hl as [|x l Hx Hl IH]; [done|].
  destruct l as [|y l]; simpl.
  - by apply split_space_plain.
  - rewrite split_space_field by done. f_equal. by apply IH.
Qed.

Lemma join_space_no_newline (l : list string) :
  Forall (fun x => has_char newline x = false) l ->
  has_char newline (join_space l) = false.
Proof.
  induction 1 as [|x l Hx Hl IH]; [done|].
  destruct l as [|y l]; simpl; [done|].
  rewrite has_char_app, Hx. simpl. exact IH.
Qed.

End FieldFacts.

(** ** [module_config], [module_names] and the paths *)

Lemma getitem_nonneg {A} (l : list A) (k : nat) :
  (k < length l)%nat -> getitem l (Z.of_nat k) = l !! k.
Proof. intros Hk. unfold getitem. by rewrite py_index_nonneg. Qed.

Section ModuleFacts.

Context (py_str : Z -> string) (py_int : string -> outcome Z).

(** X5: on an input file of more than one line, what the [module_config]
    setter writes for a list of at least three integers is read back by
    the getter as those integers under the keys ["soil"], ["unstaurated"]
    and ["saturated"], whenever [int] reads back what [str] writes and
    [str] writes neither spaces nor line breaks. *)
Theorem module_config_set_then_get (self : AquiModAWS) (fs : filesystem)
    (content : string) (soil unsaturated saturated : Z) (others : list Z) :
  fs !! input_path self = Some content ->
  (1 < length (readlines content))%nat ->
  Forall (fun n => has_char space (py_str n) = false /\
                   single_line (py_str n) /\
                   py_int (py_str n) = Returned n)
         (soil :: unsaturated :: saturated :: others) ->
  let r := set_module_config py_str self
             (soil :: unsaturated :: saturated :: others) fs in
  fst r = Returned tt /\
  module_config py_int self (snd r)
  = Returned [("soil", soil); ("unstaurated", unsaturated);
              ("saturated", saturated)].
Proof.
  intros Hc Hlen Hall. cbv zeta.
  set (config := soil :: unsaturated :: saturated :: others) in *.
  assert (Hspace : Forall (fun x => has_char space x = false)
                          (map py_str config)).
  { apply Forall_fmap. eapply Forall_impl; [exact Hall|]. by intros n [? _]. }
  assert (Hnl : has_char newline (join_space (map py_str config)) = false).
  { apply join_space_no_newline, Forall_fmap.
    eapply Forall_impl; [exact Hall|]. by intros n (_ & [? _] & _). }
  destruct (set_line_then_read self fs content Hc 1 _ Hlen Hnl)
    as [Hset Hread].
  unfold set_module_config. change 1%Z with (Z.of_nat 1). rewrite Hset.
  simpl fst. simpl snd. split; [done|].
  unfold module_config. change 1%Z with (Z.of_nat 1). rewrite Hread.
  rewrite decide_True by done.
  rewrite split_space_join by done.
  inversion Hall as [|?? (_ & _ & H0) Hall1]; subst.
  inversion Hall1 as [|?? (_ & _ & H1) Hall2]; subst.
  inversion Hall2 as [|?? (_ & _ & H2) _]; subst.
  unfold config. change 0%Z with (Z.of_nat 0). change 2%Z with (Z.of_nat 2).
  rewrite !getitem_nonneg by (simpl; lia). simpl.
  by rewrite H0, H1, H2.
Qed.

Lemma module_config_keys (self : AquiModAWS) (fs : filesystem)
    (modules : dict Z) :
  module_config py_int self fs = Returned modules ->
  dict_get modules "soil" <> None /\ dict_get modules "unsaturated" = None.
Proof.
  unfold module_config.
  destruct (_read_line self (input_path self) 1 fs) as [l|]; [|discriminate].
  destruct (getitem (split_space l) 0) as [f0|]; [|discriminate].
  destruct (py_int f0); [|discriminate].
  destruct (getitem (split_space l) 1) as [f1|]; [|discriminate].
  destruct (py_int f1); [|discriminate].
  destruct (getitem (split_space l) 2) as [f2|]; [|discriminate].
  destruct (py_int f2); [|discriminate].
  intros [= <-]. split; by vm_compute.
Qed.

Context {table column : Type}
        (component_table : string -> outcome table)
        (module_number : table -> outcome column)
        (module_name_where : table -> column -> Z -> outcome string).

Lemma df_dict_keys (cs : list string) (tables : dict table) :
  df_dict component_table cs = Returned tables -> map fst tables = cs.
Proof.
  revert tables. induction cs as [|c cs IH]; intros tables; simpl.
  - by intros [= <-].
  - destruct (component_table c); [|discriminate].
    destruct (df_dict component_table cs); [|discriminate].
    intros [= <-]. simpl. f_equal. by apply IH.
Qed.

(** X8: the [module_names] property never returns.  The getter of
    [module_config] files the second module number under ["unstaurated"],
    and the comprehension asks for ["unsaturated"]: when the table queries
    and [module_config] all return, the call raises [KeyError]. *)
Theorem module_names_never_returns (self : AquiModAWS) (fs : filesystem) :
  exists e,
    Input.module_names py_int component_table module_number
                       module_name_where self fs = Raised e /\
    ((forall c, exists t, component_table c = Returned t) ->
     (forall t, exists col, module_number t = Returned col) ->
     (forall t col n, exists name,
        module_name_where t col n = Returned name) ->
     (exists modules, module_config py_int self fs = Returned modules) ->
     e = KeyError).
Proof.
  unfold Input.module_names.
  destruct (df_dict component_table components) as [tables|e] eqn:Htables.
  2:{ exists e. split; [done|]. intros Hct _ _ _.
      exfalso. revert Htables. unfold components. simpl.
      destruct (Hct "soil") as [t1 ->].
      destruct (Hct "unsaturated") as [t2 ->].
      destruct (Hct "saturated") as [t3 ->]. discriminate. }
  destruct (module_config py_int self fs) as [modules|e] eqn:Hmodules.
  2:{ exists e. split; [done|]. intros _ _ _ [? ?]. discriminate. }
  apply module_config_keys in Hmodules as [Hsoil Hunsat].
  pose proof (df_dict_keys _ _ Htables) as Hkeys.
  destruct tables as [|[c1 t1] [|[c2 t2] tables]]; try discriminate.
  injection Hkeys as -> -> _. simpl.
  destruct (module_number t1) as [col1|e1] eqn:Hn1.
  2:{ exists e1. split; [done|]. intros _ Hmn _ _.
      destruct (Hmn t1) as [? ?]. congruence. }
  destruct (dict_get modules "soil") as [n1|]; [|done].
  destruct (module_name_where t1 col1 n1) as [name1|e1] eqn:Hw1.
  2:{ exists e1. split; [done|]. intros _ _ Hw _.
      destruct (Hw t1 col1 n1) as [? ?]. congruence. }
  destruct (module_number t2) as [col2|e2] eqn:Hn2.
  2:{ exists e2. split; [done|]. intros _ Hmn _ _.
      destruct (Hmn t2) as [? ?]. congruence. }
  rewrite Hunsat. exists KeyError. done.
Qed.

Context (module_name : string -> filesystem -> outcome string).

(** X9: whenever [module_names] returns its three components,
    [calibration_paths] and [evaluation_paths] raise [ValueError]: their
    loops run over the keys of the dictionary and unpack the key ["soil"]
    into two names. *)
Theorem calibration_paths_raise (self : AquiModAWS) (fs : filesystem)
    (names : dict string) :
  Files.module_names module_name fs = Returned names ->
  calibration_paths module_name self fs = Raised ValueError /\
  evaluation_paths module_name self fs = Raised ValueError.
Proof.
  intros Hn. unfold calibration_paths, evaluation_paths. rewrite Hn.
  apply names_of_keys in Hn. rewrite Hn. split; reflexivity.
Qed.

(** X10: [output_evaluation_paths] never returns.  When [module_names]
    returns its components and the input file has a line 10, the loop
    raises [TypeError] on its first pass, adding 1 to the string the
    [number_of_runs] getter returns. *)
Theorem output_evaluation_paths_never_returns (self : AquiModAWS)
    (fs : filesystem) :
  exists e,
    output_evaluation_paths py_str module_name self fs = Failed e /\
    (forall names content,
       Files.module_names module_name fs = Returned names ->
       fs !! input_path self = Some content ->
       (10 < length (readlines content))%nat ->
       e = TypeError).
Proof.
  unfold output_evaluation_paths.
  destruct (Files.module_names module_name fs) as [names|e] eqn:Hn.
  2:{ exists (Std e). split; [done|]. intros ?? [=]. }
  pose proof (names_of_keys _ _ _ _ Hn) as Hkeys.
  destruct names as [|[c m] names]; [discriminate|]. simpl.
  destruct (number_of_runs self fs) as [runs|e] eqn:Hruns.
  - exists TypeError. done.
  - exists (Std e). split; [done|].
    intros names' content _ Hc Hlen. exfalso.
    destruct (read_line_returns self (input_path self) fs content 10 Hc Hlen)
      as (l & _ & Hr).
    unfold number_of_runs in Hruns. change 10%Z with (Z.of_nat 10) in Hruns.
    congruence.
Qed.

End ModuleFacts.

(** ** [run] *)

Section RunFacts.

Context (py_str : Z -> string) (aquimod : string -> filesystem -> filesystem).
Context (self : AquiModAWS).

Lemma write_line_lines_ok (k : nat) (text : option string)
    (ls : list string) :
  lines_ok ls -> (forall t, text = Some t -> single_line t) ->
  lines_ok (write_line k text ls) /\
  length (write_line k text ls) = length ls.
Proof.
  intros Hls Htext. destruct text as [t|]; simpl; [|done].
  split; [|apply length_insert].
  apply lines_ok_insert; [done|]. by destruct (Htext t eq_refl).
Qed.

(** A setter of [run] on an input file whose lines are [ls]. *)
Lemma when_given_edit {A} (x : option A)
    (setter : A -> filesystem -> outcome unit * filesystem)
    (text : A -> string) (k : nat) (st : filesystem) (ls : list string) :
  (forall a st', setter a st'
     = _edit_line self (input_path self) (Z.of_nat k) (text a) st') ->
  st !! input_path self = Some (writelines ls) -> lines_ok ls ->
  (k < length ls)%nat ->
  when_given x setter st
  = (Returned tt,
     <[input_path self := writelines (write_line k (text <$> x) ls)]> st).
Proof.
  intros Hsetter Hst Hls Hk. destruct x as [a|]; simpl.
  - rewrite Hsetter. by apply edit_input_line.
  - by rewrite insert_id.
Qed.

(** X6: on an input file of more than ten lines, [run] with texts without
    line breaks returns after starting the program on files that differ
    from the ones it found only in the input file, where line 1 holds the
    module numbers joined by spaces, line 4 the simulation mode, line 7 the
    calibrated variable and line 10 the number of runs, each only when
    given, and every other line is as it was. *)
Theorem run_writes_then_starts (fs : filesystem) (content : string)
    (config : option (list Z)) (sim_mode calib_var : option string)
    (num_runs : option Z) :
  fs !! input_path self = Some content ->
  (10 < length (readlines content))%nat ->
  (forall c, config = Some c -> Forall (fun n => single_line (py_str n)) c) ->
  (forall m, sim_mode = Some m -> single_line m) ->
  (forall v, calib_var = Some v -> single_line v) ->
  (forall n, num_runs = Some n -> single_line (py_str n)) ->
  let lines :=
    write_line 10 (py_str <$> num_runs)
      (write_line 7 calib_var
         (write_line 4 sim_mode
            (write_line 1 ((fun c => join_space (map py_str c)) <$> config)
               (readlines content)))) in
  run py_str aquimod self config sim_mode calib_var num_runs fs
  = (Returned tt,
     aquimod (model_dir self) (<[input_path self := writelines lines]> fs)).
Proof.
  intros Hc Hlen Hconfig Hmode Hvar Hruns. cbv zeta.
  assert (Hfs : fs !! input_path self
                = Some (writelines (readlines content)))
    by (by rewrite writelines_readlines).
  pose proof (readlines_lines_ok content) as Hok0.
  set (t1 := (fun c => join_space (map py_str c)) <$> config).
  destruct (write_line_lines_ok 1 t1 (readlines content) Hok0)
    as [Hok1 Hlen1].
  { intros t Ht. unfold t1 in Ht.
    destruct config as [c|]; [|discriminate]. injection Ht as <-.
    specialize (Hconfig c eq_refl). split.
    - apply join_space_no_newline, Forall_fmap.
      eapply Forall_impl; [exact Hconfig|]. by intros n [? _].
    - clear -Hconfig. induction Hconfig as [|n c [_ Hn] Hc' IH]; [done|].
      destruct c as [|n' c]; simpl; [done|].
      rewrite has_char_app, Hn. simpl. exact IH. }
  set (ls1 := write_line 1 t1 (readlines content)) in *.
  destruct (write_line_lines_ok 4 sim_mode ls1 Hok1 Hmode) as [Hok4 Hlen4].
  set (ls4 := write_line 4 sim_mode ls1) in *.
  destruct (write_line_lines_ok 7 calib_var ls4 Hok4 Hvar) as [Hok7 Hlen7].
  set (ls7 := write_line 7 calib_var ls4) in *.
  unfold run, and_then.
  rewrite (when_given_edit config (set_module_config py_str self)
             (fun c => join_space (map py_str c)) 1 fs (readlines content))
    by (done || lia).
  fold t1. fold ls1.
  rewrite (when_given_edit sim_mode (set_simulation_mode self)
             (fun m => m) 4 _ ls1);
    [|done|by rewrite lookup_insert_eq|done|lia].
  rewrite insert_insert_eq, option_fmap_id. fold ls4.
  rewrite (when_given_edit calib_var (set_calibrated_variable self)
             (fun v => v) 7 _ ls4);
    [|done|by rewrite lookup_insert_eq|done|lia].
  rewrite insert_insert_eq, option_fmap_id. fold ls7.
  rewrite (when_given_edit num_runs (set_number_of_runs py_str self)
             py_str 10 _ ls7);
    [|done|by rewrite lookup_insert_eq|done|lia].
  by rewrite insert_insert_eq.
Qed.

(** X7: on an input file of eight to ten lines, [run] with a number of
    runs raises [IndexError] without starting the program, and the module
    numbers, simulation mode and calibrated variable it was given are
    already written to the input file. *)
Theorem run_short_input_keeps_edits (fs : filesystem) (content : string)
    (config : option (list Z)) (sim_mode calib_var : option string)
    (num_runs : Z) :
  fs !! input_path self = Some content ->
  (7 < length (readlines content) <= 10)%nat ->
  (forall c, config = Some c -> Forall (fun n => single_line (py_str n)) c) ->
  (forall m, sim_mode = Some m -> single_line m) ->
  (forall v, calib_var = Some v -> single_line v) ->
  let lines :=
    write_line 7 calib_var
      (write_line 4 sim_mode
         (write_line 1 ((fun c => join_space (map py_str c)) <$> config)
            (readlines content))) in
  run py_str aquimod self config sim_mode calib_var (Some num_runs) fs
  = (Raised IndexError, <[input_path self := writelines lines]> fs).
Proof.
  intros Hc Hlen Hconfig Hmode Hvar. cbv zeta.
  assert (Hfs : fs !! input_path self
                = Some (writelines (readlines content)))
    by (by rewrite writelines_readlines).
  pose proof (readlines_lines_ok content) as Hok0.
  set (t1 := (fun c => join_space (map py_str c)) <$> config).
  destruct (write_line_lines_ok 1 t1 (readlines content) Hok0)
    as [Hok1 Hlen1].
  { intros t Ht. unfold t1 in Ht.
    destruct config as [c|]; [|discriminate]. injection Ht as <-.
    specialize (Hconfig c eq_refl). split.
    - apply join_space_no_newline, Forall_fmap.
      eapply Forall_impl; [exact Hconfig|]. by intros n [? _].
    - clear -Hconfig. induction Hconfig as [|n c [_ Hn] Hc' IH]; [done|].
      destruct c as [|n' c]; simpl; [done|].
      rewrite has_char_app, Hn. simpl. exact IH. }
  set (ls1 := write_line 1 t1 (readlines content)) in *.
  destruct (write_line_lines_ok 4 sim_mode ls1 Hok1 Hmode) as [Hok4 Hlen4].
  set (ls4 := write_line 4 sim_mode ls1) in *.
  destruct (write_line_lines_ok 7 calib_var ls4 Hok4 Hvar) as [Hok7 Hlen7].
  set (ls7 := write_line 7 calib_var ls4) in *.
  unfold run, and_then.
  rewrite (when_given_edit config (set_module_config py_str self)
             (fun c => join_space (map py_str c)) 1 fs (readlines content))
    by (done || lia).
  fold t1. fold ls1.
  rewrite (when_given_edit sim_mode (set_simulation_mode self)
             (fun m => m) 4 _ ls1);
    [|done|by rewrite lookup_insert_eq|done|lia].
  rewrite insert_insert_eq, option_fmap_id. fold ls4.
  rewrite (when_given_edit calib_var (set_calibrated_variable self)
             (fun v => v) 7 _ ls4);
    [|done|by rewrite lookup_insert_eq|done|lia].
  rewrite insert_insert_eq, option_fmap_id. fold ls7.
  simpl when_given. unfold set_number_of_runs.
  change 10%Z with (Z.of_nat 10).
  rewrite (edit_input_line_short self _ ls7);
    [done|by rewrite lookup_insert_eq|done|lia].
Qed.

End RunFacts.

(** ** The properties on an input file of eleven lines *)

Lemma demo_input : demo_files !! input_path demo_self
                   = Some (writelines demo_lines).
Proof. by vm_compute. Qed.

Lemma demo_input_length : (10 < length (readlines (writelines demo_lines)))%nat.
Proof. vm_compute. lia. Qed.

Lemma short_input : short_files !! input_path demo_self
                    = Some (writelines (take 8 demo_lines)).
Proof. by vm_compute. Qed.

Lemma simulation_mode_set_then_get_witness :
  simulation_mode demo_self (snd (set_simulation_mode demo_self "e" demo_files))
  = Returned "e".
Proof.
  pose proof (simulation_mode_set_then_get demo_self demo_files
                (writelines demo_lines) demo_input "e"
                ltac:(vm_compute; lia) ltac:(split; by vm_compute)) as H.
  cbv zeta in H. destruct H as (_ & H & _). exact H.
Defined.

Lemma number_of_runs_set_then_get_witness :
  number_of_runs demo_self
    (snd (set_number_of_runs numeral_str demo_self 25 demo_files))
  = Returned "25".
Proof.
  pose proof (number_of_runs_set_then_get demo_self demo_files
                (writelines demo_lines) demo_input numeral_str 25
                demo_input_length ltac:(split; by vm_compute)) as H.
  cbv zeta in H. destruct H as (_ & H & _). exact H.
Defined.

Lemma calibrated_variable_set_then_get_witness :
  let fs' := snd (set_calibrated_variable demo_self "s" demo_files) in
  _read_line demo_self (input_path demo_self) 7 fs' = Returned "s" /\
  calibrated_variable demo_self fs' = Returned PyNone.
Proof.
  pose proof (calibrated_variable_set_then_get demo_self demo_files
                (writelines demo_lines) demo_input "s"
                ltac:(vm_compute; lia) ltac:(split; by vm_compute)) as H.
  cbv zeta in H. destruct H as (_ & H1 & H2 & _). by split.
Defined.

Lemma module_config_set_then_get_witness :
  module_config numeral_int demo_self
    (snd (set_module_config numeral_str demo_self [2; 1; 3]%Z demo_files))
  = Returned [("soil", 2%Z); ("unstaurated", 1%Z); ("saturated", 3%Z)].
Proof.
  pose proof (module_config_set_then_get numeral_str numeral_int demo_self
                demo_files (writelines demo_lines) 2 1 3 [] demo_input
                ltac:(vm_compute; lia)
                ltac:(repeat constructor; by vm_compute)) as H.
  cbv zeta in H. destruct H as [_ H]. exact H.
Defined.

Lemma calibration_paths_raise_witness :
  calibration_paths (fun c _ => Returned ("Q" +:+ c)) demo_self demo_files
  = Raised ValueError.
Proof.
  apply (calibration_paths_raise (fun c _ => Returned ("Q" +:+ c)) demo_self
           demo_files
           [("soil", "Qsoil"); ("unsaturated", "Qunsaturated");
            ("saturated", "Qsaturated")]).
  by vm_compute.
Defined.

Lemma run_writes_then_starts_witness :
  let r := run numeral_str (fun _ fs => fs) demo_self (Some [2; 1; 3]%Z)
               (Some "e") (Some "s") (Some 25%Z) demo_files in
  fst r = Returned tt /\
  module_config numeral_int demo_self (snd r)
  = Returned [("soil", 2%Z); ("unstaurated", 1%Z); ("saturated", 3%Z)] /\
  simulation_mode demo_self (snd r) = Returned "e" /\
  number_of_runs demo_self (snd r) = Returned "25".
Proof.
  cbv zeta.
  rewrite (run_writes_then_starts numeral_str (fun _ fs => fs) demo_self
             demo_files (writelines demo_lines) (Some [2; 1; 3]%Z)
             (Some "e") (Some "s") (Some 25%Z) demo_input demo_input_length).
  - repeat split; by vm_compute.
  - intros c [= <-]. repeat constructor; by vm_compute.
  - intros m [= <-]. split; by vm_compute.
  - intros v [= <-]. split; by vm_compute.
  - intros n [= <-]. split; by vm_compute.
Defined.

Lemma run_short_input_keeps_edits_witness :
  let r := run numeral_str (fun _ fs => fs) demo_self None (Some "e") None
               (Some 25%Z) short_files in
  fst r = Raised IndexError /\
  simulation_mode demo_self (snd r) = Returned "e".
Proof.
  cbv zeta.
  rewrite (run_short_input_keeps_edits numeral_str (fun _ fs => fs)
             demo_self short_files (writelines (take 8 demo_lines)) None
             (Some "e") None 25 short_input).
  - split; by vm_compute.
  - vm_compute. lia.
  - intros c [=].
  - intros m [= <-]. split; by vm_compute.
  - intros v [=].
Defined.

(** [module_names] on tables whose queries all return: the key is
    missing. *)
Example module_names_key_error :
  Input.module_names numeral_int (fun c => Returned c)
    (fun t => Returned t) (fun t col n => Returned (t +:+ numeral_str n))
    demo_self demo_files
  = Raised KeyError.
Proof. by vm_compute. Qed.
(** ** [_edit_line] reads one file and writes another *)

Import Calibration.

(** The spellings [plain_path] keeps and the ones it refuses. *)
Example plain_path_cases :
  map plain_path ["m"; "/a/b"; "m/Input.txt"; "m/"; ""; "a//b"; "./a";
                  "a/../b"; "/"]
  = [true; true; true; false; false; false; false; false; false].
Proof. by vm_compute. Qed.

(** C9: whatever [path] is passed, [_edit_line] takes the lines from the
    file at [path] and writes them, with line [line_number] replaced by the
    text and its newline, to [self.input_path]: the input file then holds
    exactly these lines, and every other file, the one at [path] included
    when it is another file, keeps its content.  When the file at [path]
    is missing or has no such line the call raises and writes nothing.
    Stated for paths in the spelling the store keeps and a text without
    line breaks. *)
Theorem edit_line_reads_path_writes_input_path (self : AquiModAWS)
    (path text : string) (n : Z) (fs : filesystem) :
  plain_path (model_dir self) = true ->
  plain_path path = true ->
  single_line text ->
  let r := _edit_line self path n text fs in
  (forall q, q <> input_path self -> snd r !! q = fs !! q) /\
  (path <> input_path self -> snd r !! path = fs !! path) /\
  match fs !! path with
  | None => r = (Raised FileNotFoundError, fs)
  | Some content =>
      match py_index (readlines content) n with
      | None => r = (Raised IndexError, fs)
      | Some k =>
          fst r = Returned tt /\
          exists written,
            snd r !! input_path self = Some written /\
            readlines written
            = <[k := text +:+ String newline EmptyString]>
                (readlines content) /\
            readlines written !! k
            = Some (text +:+ String newline EmptyString) /\
            (forall j, j <> k ->
               readlines written !! j = readlines content !! j) /\
            length (readlines written) = length (readlines content)
      end
  end.
Proof.
  intros _ _ [Htext _]. cbv zeta.
  destruct (fs !! path) as [content|] eqn:Hc.
  - destruct (py_index (readlines content) n) as [k|] eqn:Hk.
    + rewrite (edit_line_returns self path n text fs content k Hc Hk).
      simpl fst. simpl snd.
      pose proof (py_index_bound _ _ _ Hk) as Hbound.
      split; [intros q Hq; by rewrite lookup_insert_ne|].
      split; [intros Hq; rewrite lookup_insert_ne; [done|congruence]|].
      split; [done|]. eexists. split; [apply lookup_insert_eq|].
      rewrite readlines_writelines
        by (apply lines_ok_insert; [apply readlines_lines_ok|done]).
      split; [done|]. split; [by apply list_lookup_insert_eq|].
      split; [|apply length_insert].
      intros j Hj. by apply list_lookup_insert_ne.
    + unfold _edit_line, setitem. rewrite Hc, Hk. simpl. done.
  - unfold _edit_line. rewrite Hc. simpl. done.
Qed.

(** Editing line 0 of a calibration file: the input file becomes the
    edited copy and the calibration file stays. *)
Lemma edit_line_reads_path_writes_input_path_witness :
  let self := {| model_dir := "m" |} in
  let fs : filesystem :=
    {[ "m/Input.txt" := "a" +:+ String newline "b";
       "m/calib.txt" := "x" +:+ String newline "y" ]} in
  let r := _edit_line self "m/calib.txt" 0 "z" fs in
  snd r !! "m/calib.txt" = Some ("x" +:+ String newline "y") /\
  fst r = Returned tt /\
  exists written,
    snd r !! "m/Input.txt" = Some written /\
    readlines written = ["z" +:+ String newline EmptyString; "y"].
Proof.
  intros self fs.
  destruct (edit_line_reads_path_writes_input_path self "m/calib.txt" "z" 0
              fs) as (_ & Hpath & Hrun).
  - by vm_compute.
  - by vm_compute.
  - split; by vm_compute.
  - split.
    + rewrite Hpath; [by vm_compute|]. by vm_compute.
    + change (fs !! "m/calib.txt")
        with (Some ("x" +:+ String newline "y")) in Hrun.
      change (py_index (readlines ("x" +:+ String newline "y")) 0)
        with (Some 0%nat) in Hrun.
      destruct Hrun as (Hret & written & Hw & Hlines & _).
      split; [exact Hret|]. exists written. split; [exact Hw|exact Hlines].
Defined.

(** ** [_cce] and [calibrate] as they run *)

Section ProgramFacts.

Context (py_str : Z -> string)
        (aquimod : string -> filesystem -> filesystem)
        (module_name : string -> filesystem -> outcome string)
        (read_csv : string -> filesystem -> result DataFrame)
        (concat : list DataFrame -> result DataFrame)
        (to_csv : DataFrame -> string).

Implicit Types (self : AquiModAWS) (fs : filesystem)
               (complx : dict DataFrame).

(** [_cce] raises on every complex and leaves the files alone: with what
    [pd.concat] raises, or at line 318. *)
Lemma cce_raises self complx (simplx_size alpha : nat) (rc cc : Q) fs :
  exists e,
    _cce concat self complx simplx_size alpha rc cc fs = (Failed e, fs) /\
    (forall complx_df, concat (map snd complx) = Done complx_df ->
       e = missing_method "sort_by" complx_df) /\
    (forall e', concat (map snd complx) = Failed e' -> e = e').
Proof.
  unfold _cce. destruct (concat (map snd complx)) as [complx_df|e'].
  - eexists. split; [reflexivity|]. split; [by intros ? [= <-]|done].
  - exists e'. split; [done|]. split; [done|by intros ? [= <-]].
Qed.

Lemma missing_method_cases (name : string) (df : DataFrame) :
  (name ∉ columns df -> missing_method name df = AttributeError) /\
  (name ∈ columns df -> missing_method name df = TypeError).
Proof.
  unfold missing_method. destruct (decide (name ∈ columns df)); split; done.
Qed.

(** The loop over the complexes stops in its first pass. *)
Lemma evolve_complexes_raises self population (num_complexes : nat)
    (todo : list nat) (simplex_size alpha : nat) fs :
  todo <> [] ->
  exists e,
    evolve_complexes concat self population num_complexes todo simplex_size
                     alpha fs = (Failed e, fs) /\
    (population = None -> e = AttributeError).
Proof.
  destruct todo as [|i todo]; [done|]. intros _. simpl.
  destruct population as [tables|].
  - destruct (cce_raises self (complx_dict tables num_complexes i)
                simplex_size alpha default_reflection_coef
                default_contraction_coef fs) as (e & -> & _).
    by exists e.
  - by exists AttributeError.
Qed.

(** [evaluation_paths] raises whatever [module_names] does. *)
Lemma evaluation_paths_raises self fs :
  exists e, evaluation_paths module_name self fs = Raised e /\
            (forall names, Files.module_names module_name fs = Returned names ->
               e = ValueError).
Proof.
  unfold evaluation_paths.
  destruct (Files.module_names module_name fs) as [names|e] eqn:Hn.
  - apply names_of_keys in Hn. rewrite Hn. by exists ValueError.
  - exists e. split; [done|]. by intros ? [=].
Qed.

(** The setter of [evaluation_parameters] writes nothing: given a table
    it raises before the first file is written. *)
Lemma set_evaluation_parameters_raises self (eval_dict : dict DataFrame) fs :
  eval_dict <> [] ->
  exists e,
    set_evaluation_parameters module_name to_csv self eval_dict fs
    = (Raised e, fs) /\
    (forall names, Files.module_names module_name fs = Returned names ->
       e = ValueError).
Proof.
  destruct eval_dict as [|[component df] eval_dict]; [done|]. intros _.
  destruct (evaluation_paths_raises self fs) as (e & He & Hv).
  exists e. simpl. by rewrite He.
Qed.

(** In evaluation mode, and in every mode but ["c"],
    [read_performance_output] returns no table. *)
Lemma read_performance_output_tables self fs (output : dict DataFrame) :
  read_performance_output py_str module_name read_csv self fs
  = Done (Some output) ->
  simulation_mode self fs = Returned "c" /\
  exists paths,
    output_calibration_paths module_name self fs = Returned paths /\
    read_tables read_csv self paths fs = Done output.
Proof.
  unfold read_performance_output.
  destruct (simulation_mode self fs) as [mode|]; [|discriminate].
  destruct (String.eqb_spec mode "c") as [->|Hmode].
  - destruct (output_calibration_paths module_name self fs) as [paths|];
      [|discriminate].
    destruct (read_tables read_csv self paths fs) as [out|] eqn:Hout;
      [|discriminate].
    intros [= <-]. split; [done|]. by exists paths.
  - destruct (String.eqb mode "e"); [|discriminate].
    destruct (evaluation_paths_raises self fs) as (e & -> & _).
    discriminate.
Qed.

(** [run(sim_mode="c", num_runs=n)] on an input file of more than ten
    lines: lines 4 and 10 are written and the program is started. *)
Lemma run_sample self fs (content : string) (n : Z) :
  fs !! input_path self = Some content ->
  (10 < length (readlines content))%nat ->
  single_line (py_str n) ->
  run py_str aquimod self None (Some "c") None (Some n) fs
  = (Returned tt,
     aquimod (model_dir self)
       (<[input_path self :=
            writelines (<[10 := py_str n +:+ String newline EmptyString]>
                          (<[4 := "c" +:+ String newline EmptyString]>
                             (readlines content)))]> fs)).
Proof.
  intros Hc Hlen [Hn _].
  assert (Hfs : fs !! input_path self
                = Some (writelines (readlines content)))
    by (by rewrite writelines_readlines).
  pose proof (readlines_lines_ok content) as Hok.
  unfold run, and_then, when_given, set_simulation_mode, set_number_of_runs.
  change 4%Z with (Z.of_nat 4). change 10%Z with (Z.of_nat 10).
  rewrite (edit_input_line self fs (readlines content) 4 "c")
    by (done || lia).
  rewrite (edit_input_line self _
             (<[4 := "c" +:+ String newline EmptyString]> (readlines content))
             10 (py_str n)).
  - by rewrite insert_insert_eq.
  - by rewrite lookup_insert_eq.
  - by apply lines_ok_insert.
  - rewrite length_insert. lia.
Qed.

(** What a call of [calibrate] does: its only effect on the files is that
    of its first statement, [self.run(sim_mode="c", num_runs=...)]; what
    that statement raises it raises; with one complex or more it never
    returns, and what it returns is [None]. *)
Lemma calibrate_run self (num_complexes complex_size simplex_size
    alpha : nat) fs :
  let first := run py_str aquimod self None (Some "c") None
                   (Some (Z.of_nat (num_complexes * complex_size))) fs in
  let r := calibrate py_str aquimod module_name read_csv concat self
                     num_complexes complex_size simplex_size alpha fs in
  snd r = snd first /\
  (forall e, fst first = Raised e -> fst r = Failed (Std e)) /\
  (1 <= num_complexes -> exists e, fst r = Failed e) /\
  (forall v, fst r = Done v -> v = PyNone /\ num_complexes = 0).
Proof.
  cbv zeta. unfold calibrate.
  destruct (run py_str aquimod self None (Some "c") None
              (Some (Z.of_nat (num_complexes * complex_size))) fs)
    as [[[]|e] fs']; simpl fst; simpl snd.
  2:{ split; [done|]. split; [by intros ? [= <-]|].
      split; [intros _; by eexists|done]. }
  destruct (read_performance_output py_str module_name read_csv self fs')
    as [population|e]; simpl fst; simpl snd.
  2:{ split; [done|]. split; [done|]. split; [intros _; by eexists|done]. }
  destruct num_complexes as [|p].
  - simpl. split; [done|]. split; [done|]. split; [lia|].
    by intros ? [= <-].
  - destruct (evolve_complexes_raises self population (S p) (seq 0 (S p))
                simplex_size alpha fs') as (e & He & _); [done|].
    rewrite He. simpl. split; [done|]. split; [done|].
    split; [intros _; by eexists|done].
Qed.

End ProgramFacts.

(** C1: [calibrate] makes no rounds and returns no best point.  Whatever
    pandas, [module_names] and the program do, its only effect on the
    files is that of its first statement, the run of the sample, so the
    program is started once at most; what [run] raises it raises; with one
    complex or more it raises, and without complexes it returns [None].
    On the eleven-line input file, [calibrate(2, 4, 3, 2)] writes the mode
    and the eight runs, and raises what [module_names] raises at line 424;
    with a [module_names] that returns, it raises [AttributeError] in the
    first call of [_cce]. *)
Theorem calibrate_single_pass :
  (forall py_str aquimod module_name read_csv concat self
          (num_complexes complex_size simplex_size alpha : nat) fs,
     let first := run py_str aquimod self None (Some "c") None
                      (Some (Z.of_nat (num_complexes * complex_size))) fs in
     let r := calibrate py_str aquimod module_name read_csv concat self
                        num_complexes complex_size simplex_size alpha fs in
     snd r = snd first /\
     (forall e, fst first = Raised e -> fst r = Failed (Std e)) /\
     (1 <= num_complexes -> exists e, fst r = Failed e) /\
     (forall v, fst r = Done v -> v = PyNone /\ num_complexes = 0)) /\
  (let r := calibrate numeral_str (fun _ fs => fs) demo_module_name
                      demo_read_csv demo_concat demo_self 2 4 3 2
                      demo_files in
   fst r = Failed (Std KeyError) /\
   simulation_mode demo_self (snd r) = Returned "c" /\
   number_of_runs demo_self (snd r) = Returned "8") /\
  fst (calibrate numeral_str (fun _ fs => fs) named_module demo_read_csv
                 demo_concat demo_self 2 4 3 2 demo_files)
  = Failed AttributeError.
Proof.
  split; [|split].
  - intros. apply calibrate_run.
  - repeat split; by vm_compute.
  - by vm_compute.
Qed.

(** C2: no weight is assigned.  The sum [m + 1 + range(1, m + 1)] of line
    319 raises [TypeError] for every [m]; [complx["weight"]] of line 321
    raises [KeyError] on a dictionary of tables by component; and no call
    of [_cce] gets that far: each raises at line 318 or before,
    [AttributeError] when the columns of the complex have other names than
    [sort_by].  So it is for a complex of two points. *)
Theorem cce_assigns_no_weights :
  (forall m, weight_column m = Failed TypeError) /\
  (forall complx, "weight" ∉ map fst complx ->
     complx_weight complx = Failed (Std KeyError)) /\
  (forall concat self complx (simplx_size alpha : nat) rc cc fs,
     exists e,
       _cce concat self complx simplx_size alpha rc cc fs = (Failed e, fs) /\
       (forall complx_df, concat (map snd complx) = Done complx_df ->
          "sort_by" ∉ columns complx_df -> e = AttributeError)) /\
  weight_column 2 = Failed TypeError /\
  complx_weight [("soil", demo_points)] = Failed (Std KeyError) /\
  _cce demo_concat demo_self [("soil", demo_points)] 2 1
       default_reflection_coef default_contraction_coef demo_files
  = (Failed AttributeError, demo_files).
Proof.
  split; [done|]. split.
  { intros complx Hk. unfold complx_weight, dict_item.
    by rewrite dict_get_None. }
  split.
  { intros concat self complx q alpha rc cc fs.
    destruct (cce_raises concat self complx q alpha rc cc fs)
      as (e & He & Hdone & _).
    exists e. split; [done|]. intros complx_df Hc Hcol.
    rewrite (Hdone complx_df Hc). by apply missing_method_cases. }
  repeat split; by vm_compute.
Qed.

(** C4: no candidate is evaluated.  No call of [_cce] returns or touches
    the files, so none starts the program, on a reflected point or on a
    drawn one; and the setter of [evaluation_parameters], which line 366
    needs to stage the reflected point, raises on every table before it
    writes a file.  So it is for a complex whose worst point reflects out
    of the limits. *)
Theorem cce_evaluates_no_candidate :
  (forall concat self complx (simplx_size alpha : nat) rc cc fs,
     exists e,
       _cce concat self complx simplx_size alpha rc cc fs = (Failed e, fs)) /\
  (forall module_name to_csv self (eval_dict : dict DataFrame) fs,
     eval_dict <> [] ->
     exists e,
       set_evaluation_parameters module_name to_csv self eval_dict fs
       = (Raised e, fs) /\
       (forall names, Files.module_names module_name fs = Returned names ->
          e = ValueError)) /\
  _cce demo_concat demo_self [("soil", demo_outlier)] 3 1
       default_reflection_coef default_contraction_coef demo_files
  = (Failed AttributeError, demo_files) /\
  set_evaluation_parameters named_module demo_to_csv demo_self
                            [("soil", demo_outlier)] demo_files
  = (Raised ValueError, demo_files).
Proof.
  split.
  { intros concat self complx q alpha rc cc fs.
    destruct (cce_raises concat self complx q alpha rc cc fs)
      as (e & He & _).
    by exists e. }
  split; [intros; by apply set_evaluation_parameters_raises|].
  split; by vm_compute.
Qed.

(** C5: no point is reflected, contracted or replaced.  What a call of
    [_cce] does is the same for every [reflection_coef],
    [contraction_coef], [simplx_size] and [alpha]: it raises at line 318
    or before, without reading one of them.  So it is with the default
    coefficients 1 and 1/2 on a complex of three points. *)
Theorem cce_reads_no_coefficient :
  (forall concat self complx (simplx_size alpha simplx_size' alpha' : nat)
          rc cc rc' cc' fs,
     _cce concat self complx simplx_size alpha rc cc fs
     = _cce concat self complx simplx_size' alpha' rc' cc' fs /\
     exists e,
       _cce concat self complx simplx_size alpha rc cc fs = (Failed e, fs)) /\
  default_reflection_coef = 1%Q /\ default_contraction_coef = (1 # 2)%Q /\
  _cce demo_concat demo_self [("soil", demo_triple)] 2 1
       default_reflection_coef default_contraction_coef demo_files
  = (Failed AttributeError, demo_files).
Proof.
  split.
  { intros. split; [reflexivity|].
    destruct (cce_raises concat self complx simplx_size alpha rc cc fs)
      as (e & He & _).
    by exists e. }
  repeat split; by vm_compute.
Qed.

(** ** The draw of the simplex *)

Section SimplexFacts.

Context (choice : nat -> list nat -> nat -> list Q -> outcome (list nat))
        (column : DataFrame -> string -> result (list Q))
        (loc : DataFrame -> list nat -> result DataFrame)
        (loc_assign : DataFrame -> list nat -> DataFrame -> result DataFrame).

(** The loop stops in its first pass, at line 330. *)
Lemma for_range_cce_iteration (alpha : nat) (simplx : DataFrame)
    (g : generator) :
  for_range alpha cce_iteration simplx g
  = match alpha with
    | O => (Done simplx, g)
    | S _ => (Failed (missing_method "sort_by" simplx), g)
    end.
Proof. by destruct alpha. Qed.


End SimplexFacts.



(** ** The partition in [calibrate] *)




(** ** What [read_performance_output] hands back *)

Section OutputFacts.

Context (py_str : Z -> string)
        (module_name : string -> filesystem -> outcome string)
        (read_csv : string -> filesystem -> result DataFrame).

Lemma read_tables_keys (self : AquiModAWS) (paths : dict string)
    (fs : filesystem) (output : dict DataFrame) :
  read_tables read_csv self paths fs = Done output ->
  map fst output = map fst paths.
Proof.
  revert output. induction paths as [|[component path] paths IH];
    intros output; simpl.
  - by intros [= <-].
  - destruct (_read_data read_csv self path fs); [|discriminate].
    destruct (read_tables read_csv self paths fs); [|discriminate].
    intros [= <-]. simpl. f_equal. by apply IH.
Qed.

(** X16: [read_performance_output] returns tables only in calibration
    mode and only when [module_names] returns; it then returns one table
    per component and never the table of the fit, where the objective
    values are.  In evaluation mode it raises, and in every other mode it
    returns [None]. *)
Theorem read_performance_output_has_no_fit (self : AquiModAWS)
    (fs : filesystem) :
  (forall output,
     read_performance_output py_str module_name read_csv self fs
     = Done (Some output) ->
     simulation_mode self fs = Returned "c" /\
     map fst output = components /\
     dict_get output "fit" = None /\
     exists names, Files.module_names module_name fs = Returned names) /\
  (simulation_mode self fs = Returned "e" ->
   exists e,
     read_performance_output py_str module_name read_csv self fs
     = Failed e) /\
  (forall mode, simulation_mode self fs = Returned mode ->
     mode <> "c" -> mode <> "e" ->
     read_performance_output py_str module_name read_csv self fs
     = Done None).
Proof.
  split; [|split].
  - intros output Hout.
    apply read_performance_output_tables in Hout
      as (Hmode & paths & Hpaths & Htables).
    apply read_tables_keys in Htables.
    destruct (output_calibration_paths_no_fit _ _ _ _ Hpaths)
      as [_ Hkeys].
    rewrite Hkeys in Htables.
    split; [done|]. split; [done|]. split.
    + apply dict_get_None. rewrite Htables. unfold components.
      intros Hin.
      repeat (apply elem_of_cons in Hin as [Hin|Hin]; [discriminate|]).
      by apply elem_of_nil in Hin.
    + unfold output_calibration_paths in Hpaths.
      destruct (Files.module_names module_name fs) as [names|];
        [by exists names|discriminate].
  - intros Hmode. unfold read_performance_output. rewrite Hmode. simpl.
    destruct (evaluation_paths_raises module_name self fs) as (e & -> & _).
    by eexists.
  - intros mode Hmode Hc He. unfold read_performance_output.
    rewrite Hmode.
    destruct (String.eqb_spec mode "c"); [done|].
    by destruct (String.eqb_spec mode "e").
Qed.

End OutputFacts.

